(** * Terrain3D geometry clipmap tile builder (src/geoclipmap.cpp)

    A shallow embedding of [GeoClipMap::_create_mesh] and
    [GeoClipMap::generate], and the properties of the tile they build.

    Conventions of the embedding:
    - A C++ [int] is a 32-bit integer.  An [int] expression is an
      [option Z]: every operation checks that its result fits, and an
      operation that overflows (undefined behaviour in C++) gives [None],
      which ends the run without a result.  [generate] has a result only
      for [-18919 <= p_size <= 18916] ([generate_defined_range]).
    - [real_t] values are rationals of [Q].  The sizes are computed, in
      [int], before any [real_t] value is; on the sizes that get that far
      every [real_t] value the code computes is an integer or a
      half-integer of small magnitude, which single precision represents
      exactly ([vertex_list_exact], for the sizes from 0 up).  Vectors
      are compared with [==].
    - A packed array is a list of slots; a slot that [resize] created and
      nothing wrote yet is [None].  A write outside the array fails. *)

From Stdlib Require Import ZArith QArith Lia Lqa List.
From stdpp Require Import base tactics option list list_numbers gmap.

Local Open Scope Z_scope.

(** ** Vectors and boxes *)

Record Vector3 : Type := mkVector3 { vx : Q; vy : Q; vz : Q }.

(** [Vector3(a, b, c)] applied to [int] arguments. *)
Definition Vector3i (a b c : Z) : Vector3 :=
  mkVector3 (inject_Z a) (inject_Z b) (inject_Z c).

Definition v3_add (a b : Vector3) : Vector3 :=
  mkVector3 (vx a + vx b)%Q (vy a + vy b)%Q (vz a + vz b)%Q.

Definition v3_sub (a b : Vector3) : Vector3 :=
  mkVector3 (vx a - vx b)%Q (vy a - vy b)%Q (vz a - vz b)%Q.

(** [Vector3::cross], the usual right-handed cross product. *)
Definition v3_cross (a b : Vector3) : Vector3 :=
  mkVector3 (vy a * vz b - vz a * vy b)%Q
            (vz a * vx b - vx a * vz b)%Q
            (vx a * vy b - vy a * vx b)%Q.

Definition v3_eq (a b : Vector3) : Prop :=
  (vx a == vx b)%Q /\ (vy a == vy b)%Q /\ (vz a == vz b)%Q.

Record AABB : Type := mkAABB { position : Vector3; size : Vector3 }.

(** ** Packed arrays *)

Abbreviation Packed A := (list (option A)).

Definition pa_size {A} (arr : Packed A) : Z := Z.of_nat (length arr).

(** [resize] keeps the leading elements and appends unwritten slots; a
    negative size is rejected and leaves the array as it is. *)
Definition pa_resize {A} (p_size : Z) (arr : Packed A) : Packed A :=
  if p_size <? 0 then arr
  else take (Z.to_nat p_size) arr
       ++ replicate (Z.to_nat p_size - length arr)%nat None.

Definition pa_fill {A} (v : A) (arr : Packed A) : Packed A :=
  (fun _ => Some v) <$> arr.

(** [arr[i] = v]. *)
Definition pa_set {A} (arr : Packed A) (i : Z) (v : A) : option (Packed A) :=
  if (0 <=? i) && (i <? pa_size arr)
  then Some (<[Z.to_nat i := Some v]> arr)
  else None.

(** [arr[i]] as a read: the slot, when [i] is inside the array. *)
Definition pa_get {A} (arr : Packed A) (i : Z) : option (option A) :=
  if 0 <=? i then arr !! Z.to_nat i else None.

(** ** State and failure *)

Definition M (St A : Type) : Type := St -> option (A * St).

Definition ret {St A} (a : A) : M St A := fun s => Some (a, s).

Definition fail {St A} : M St A := fun _ => None.

Definition bind {St A B} (c : M St A) (k : A -> M St B) : M St B :=
  fun s => match c s with
           | Some (a, s') => k a s'
           | None => None
           end.

Notation "x <- c ;; k" := (bind c (fun x => k))
  (at level 100, c at next level, right associativity).
Notation "c ;; k" := (bind c (fun _ => k))
  (at level 100, right associativity).

(** ** [int] arithmetic *)

Definition INT_MIN : Z := -2147483648.
Definition INT_MAX : Z := 2147483647.

Definition in_int (z : Z) : bool := (INT_MIN <=? z) && (z <=? INT_MAX).

(** An [int] value: a variable or a literal of the code. *)
Definition int (z : Z) : option Z := if in_int z then Some z else None.

Definition iadd (a b : option Z) : option Z :=
  match a, b with
  | Some x, Some y => int (x + y)
  | _, _ => None
  end.

Definition isub (a b : option Z) : option Z :=
  match a, b with
  | Some x, Some y => int (x - y)
  | _, _ => None
  end.

Definition imul (a b : option Z) : option Z :=
  match a, b with
  | Some x, Some y => int (x * y)
  | _, _ => None
  end.

Definition ineg (a : option Z) : option Z :=
  match a with
  | Some x => int (- x)
  | None => None
  end.

Notation "a +! b" := (iadd a b) (at level 50, left associativity).
Notation "a -! b" := (isub a b) (at level 50, left associativity).
Notation "a *! b" := (imul a b) (at level 40, left associativity).

(** The value of an expression, or no run when it has none. *)
Definition eval {St A} (e : option A) : M St A :=
  fun s => match e with
           | Some a => Some (a, s)
           | None => None
           end.

(** ** [for] loops

    [for (int i = lo; i < hi; i++) body], where [hi] is an [int]
    expression that no iteration changes and the body says whether it ran
    to its end or left the loop through [break].  The fuel is the number
    of iterations the loop can make; running out of it is a failure, so
    a result is a result of the loop itself. *)

Inductive ctl : Type := Continue | Break.

Fixpoint for_fuel {St} (fuel : nat) (i hi : Z) (body : Z -> M St ctl)
  : M St unit :=
  if i <? hi then
    match fuel with
    | O => fail
    | S fuel' =>
        c <- body i ;;
        match c with
        | Break => ret tt
        | Continue =>
            i' <- eval (int i +! int 1) ;;
            for_fuel fuel' i' hi body
        end
    end
  else ret tt.

Definition for_range {St} (lo : Z) (hi : option Z) (body : Z -> M St ctl)
  : M St unit :=
  h <- eval hi ;;
  for_fuel (Z.to_nat (h - lo)) lo h body.

(** ** The header's index helper *)

(** The row-major index of column [x], row [y] in rows of [width]. *)
Definition patch (x y width : Z) : Z := y * width + x.

(** Modelled from the spec: [_patch_2d] is declared in geoclipmap.h, which
    is not among the sources; the specification gives it as the row-major
    index function [patch(x, y, width) = y * width + x].  Its arguments
    and its result are [int]. *)
Definition _patch_2d (x y res : option Z) : option Z := y *! res +! x.

(** ** The rendering server *)

Inductive Variant : Type :=
| Nil
| VPackedVector3Array (a : Packed Vector3)
| VPackedInt32Array (a : Packed Z)
| VPackedFloat32Array (a : Packed Q).

Inductive PrimitiveType : Type :=
| PRIMITIVE_POINTS
| PRIMITIVE_LINES
| PRIMITIVE_LINE_STRIP
| PRIMITIVE_TRIANGLES
| PRIMITIVE_TRIANGLE_STRIP.

(** Slots of the surface array, [RenderingServer::ArrayType]. *)
Definition ARRAY_VERTEX : nat := 0.
Definition ARRAY_NORMAL : nat := 1.
Definition ARRAY_TANGENT : nat := 2.
Definition ARRAY_INDEX : nat := 12.
Definition ARRAY_MAX : nat := 13.

Record Surface : Type := mkSurface {
  primitive : PrimitiveType;
  surface_arrays : list Variant
}.

Record Mesh : Type := mkMesh {
  surfaces : list Surface;
  custom_aabb : option AABB
}.

Abbreviation RID := N.

(** Modelled from the spec: the rendering backend is an external
    collaborator; the specification lists the three entry points the
    builder relies on (create an empty mesh resource and return its
    handle, add one surface to a handle from attribute arrays, set a
    custom bounding box on a handle).  The backend is a table of meshes
    and the next handle to give out. *)
Record RenderingServer : Type := mkRS {
  meshes : gmap N Mesh;
  next_rid : N
}.

Definition mesh_create (r : RenderingServer) : RID * RenderingServer :=
  (next_rid r,
   mkRS (<[next_rid r := mkMesh [] None]> (meshes r)) (N.succ (next_rid r))).

Definition mesh_add_surface_from_arrays (mesh : RID) (p : PrimitiveType)
    (arrays : list Variant) (r : RenderingServer) : RenderingServer :=
  mkRS (alter (fun me => mkMesh (surfaces me ++ [mkSurface p arrays])
                                (custom_aabb me)) mesh (meshes r))
       (next_rid r).

Definition mesh_set_custom_aabb (mesh : RID) (box : AABB)
    (r : RenderingServer) : RenderingServer :=
  mkRS (alter (fun me => mkMesh (surfaces me) (Some box)) mesh (meshes r))
       (next_rid r).

(** ** The logger *)

Inductive LogEntry : Type :=
| LogGenerating (p_size p_levels : Z)
| LogCreatingMesh
| LogSettingAabb (pos sz : Vector3).

(** What [generate] can change outside its own locals. *)
Record World : Type := mkWorld {
  RS : RenderingServer;
  logged : list LogEntry
}.

Definition LOG (e : LogEntry) : M World unit :=
  fun w => Some (tt, mkWorld (RS w) (logged w ++ [e])).

Definition rs_call {A} (f : RenderingServer -> A * RenderingServer)
  : M World A :=
  fun w => let '(a, r) := f (RS w) in Some (a, mkWorld r (logged w)).

Definition rs_do (f : RenderingServer -> RenderingServer) : M World unit :=
  fun w => Some (tt, mkWorld (f (RS w)) (logged w)).

(** ** [GeoClipMap::_create_mesh] *)

Definition _create_mesh (p_vertices : Packed Vector3) (p_indices : Packed Z)
    (p_aabb : AABB) : M World RID :=
  let arrays := replicate ARRAY_MAX Nil in
  let arrays := <[ARRAY_VERTEX := VPackedVector3Array p_vertices]> arrays in
  let arrays := <[ARRAY_INDEX := VPackedInt32Array p_indices]> arrays in
  let normals := pa_resize (pa_size p_vertices) [] in
  let normals := pa_fill (Vector3i 0 1 0) normals in
  let arrays := <[ARRAY_NORMAL := VPackedVector3Array normals]> arrays in
  let tangents := pa_resize (pa_size p_vertices * 4) [] in
  let tangents := pa_fill 0%Q tangents in
  let arrays := <[ARRAY_TANGENT := VPackedFloat32Array tangents]> arrays in
  LOG LogCreatingMesh ;;
  mesh <- rs_call mesh_create ;;
  rs_do (mesh_add_surface_from_arrays mesh PRIMITIVE_TRIANGLES arrays) ;;
  LOG (LogSettingAabb (position p_aabb) (size p_aabb)) ;;
  rs_do (mesh_set_custom_aabb mesh p_aabb) ;;
  ret mesh.

(** ** [GeoClipMap::generate] *)

(** The locals of the tile block.  [m] is declared only before the stitch
    loops and nothing reads it earlier; it is 0 until then.  [vwrites]
    and [iwrites] are not in the source: they record, in order, the slot
    of every write made to [vertices] and to [indices]. *)
Record Locals : Type := mkLocals {
  vertices : Packed Vector3;
  indices : Packed Z;
  n : Z;
  m : Z;
  vwrites : list Z;
  iwrites : list Z
}.

(** [int n = 0] at line 53; the arrays are declared empty. *)
Definition init_locals : Locals := mkLocals [] [] 0 0 [] [].

Definition resize_vertices (e : option Z) : M Locals unit :=
  k <- eval e ;;
  fun l => Some (tt, mkLocals (pa_resize k (vertices l)) (indices l)
                              (n l) (m l) (vwrites l) (iwrites l)).

Definition resize_indices (e : option Z) : M Locals unit :=
  k <- eval e ;;
  fun l => Some (tt, mkLocals (vertices l) (pa_resize k (indices l))
                              (n l) (m l) (vwrites l) (iwrites l)).

Definition set_n (e : option Z) : M Locals unit :=
  k <- eval e ;;
  fun l => Some (tt, mkLocals (vertices l) (indices l) k (m l)
                              (vwrites l) (iwrites l)).

Definition set_m (e : option Z) : M Locals unit :=
  k <- eval e ;;
  fun l => Some (tt, mkLocals (vertices l) (indices l) (n l) k
                              (vwrites l) (iwrites l)).

(** [vertices[n++] = v]. *)
Definition put_vertex (v : Vector3) : M Locals unit :=
  fun l => match pa_set (vertices l) (n l) v, int (n l) +! int 1 with
           | Some a, Some n' =>
               Some (tt, mkLocals a (indices l) n' (m l)
                                  (vwrites l ++ [n l]) (iwrites l))
           | _, _ => None
           end.

(** [indices[n++] = e]. *)
Definition put_index (e : option Z) : M Locals unit :=
  i <- eval e ;;
  fun l => match pa_set (indices l) (n l) i, int (n l) +! int 1 with
           | Some a, Some n' =>
               Some (tt, mkLocals (vertices l) a n' (m l)
                                  (vwrites l) (iwrites l ++ [n l]))
           | _, _ => None
           end.

(** [indices[n++] = m]. *)
Definition put_m : M Locals unit :=
  fun l => put_index (int (m l)) l.

(** [indices[n++] = m++]. *)
Definition put_m_incr : M Locals unit :=
  fun l => (put_index (int (m l)) ;; set_m (int (m l) +! int 1)) l.

(** [Vector3(np * 0.5f - 1.0f, 0, np * 0.5f - 1.0f)] for the [int]
    [np = -p_size]. *)
Definition offset_from (np : Z) : Vector3 :=
  mkVector3 (inject_Z np * (1 # 2) - 1)%Q
            0%Q
            (inject_Z np * (1 # 2) - 1)%Q.

(** The offset of a tile of size [p_size]. *)
Definition tile_offset (p_size : Z) : Vector3 := offset_from (- p_size).

(** Lines 79-84: row [y] of the grid vertices, left early at the last
    corner. *)
Definition grid_vertices_row (p_size : Z) (offset : Vector3) (y : Z)
  : M Locals unit :=
  for_range 0 (int p_size +! int 3) (fun x =>
    corner <- eval (int p_size +! int 2) ;;
    if (x =? corner) && (y =? corner) then ret Break
    else
      put_vertex (v3_add (Vector3i x 0 y) offset) ;;
      ret Continue).

(** Lines 78-85: the grid vertices, row by row. *)
Definition grid_vertices (p_size : Z) (offset : Vector3) : M Locals unit :=
  for_range 0 (int p_size +! int 3) (fun y =>
    grid_vertices_row p_size offset y ;;
    ret Continue).

(** Lines 86-88. *)
Definition column_strip_vertices (p_size : Z) (offset : Vector3)
  : M Locals unit :=
  for_range 0 (int p_size +! int 1) (fun y =>
    edge <- eval (int p_size +! int 2) ;;
    put_vertex (v3_add (mkVector3 (inject_Z edge) 0
                                  (inject_Z y + (1 # 2))%Q) offset) ;;
    ret Continue).

(** Lines 89-91. *)
Definition row_strip_vertices (p_size : Z) (offset : Vector3)
  : M Locals unit :=
  for_range 0 (int p_size +! int 1) (fun x =>
    edge <- eval (int p_size +! int 2) ;;
    put_vertex (v3_add (mkVector3 (inject_Z x + (1 # 2))%Q 0
                                  (inject_Z edge)) offset) ;;
    ret Continue).

(** Lines 95-103: the two triangles of every cell of row [y]. *)
Definition grid_indices_row (p_size y : Z) : M Locals unit :=
  for_range 0 (int p_size +! int 1) (fun x =>
    put_index (_patch_2d (int x) (int y) (int p_size +! int 3)) ;;
    put_index (_patch_2d (int x +! int 1) (int y +! int 1)
                         (int p_size +! int 3)) ;;
    put_index (_patch_2d (int x) (int y +! int 1) (int p_size +! int 3)) ;;
    put_index (_patch_2d (int x) (int y) (int p_size +! int 3)) ;;
    put_index (_patch_2d (int x +! int 1) (int y) (int p_size +! int 3)) ;;
    put_index (_patch_2d (int x +! int 1) (int y +! int 1)
                         (int p_size +! int 3)) ;;
    ret Continue).

(** Lines 94-104. *)
Definition grid_indices (p_size : Z) : M Locals unit :=
  for_range 0 (int p_size +! int 1) (fun y =>
    grid_indices_row p_size y ;;
    ret Continue).

(** Lines 106-118. *)
Definition column_strip_indices (p_size : Z) : M Locals unit :=
  for_range 0 (int p_size +! int 1) (fun y =>
    put_index (_patch_2d (int p_size +! int 1) (int y)
                         (int p_size +! int 3)) ;;
    put_index (_patch_2d (int p_size +! int 2) (int y)
                         (int p_size +! int 3)) ;;
    put_m ;;
    put_index (_patch_2d (int p_size +! int 1) (int y +! int 1)
                         (int p_size +! int 3)) ;;
    put_index (_patch_2d (int p_size +! int 1) (int y)
                         (int p_size +! int 3)) ;;
    put_m ;;
    put_index (_patch_2d (int p_size +! int 2) (int y +! int 1)
                         (int p_size +! int 3)) ;;
    put_index (_patch_2d (int p_size +! int 1) (int y +! int 1)
                         (int p_size +! int 3)) ;;
    put_m_incr ;;
    ret Continue).

(** Lines 119-131. *)
Definition row_strip_indices (p_size : Z) : M Locals unit :=
  for_range 0 (int p_size +! int 1) (fun x =>
    put_index (_patch_2d (int x) (int p_size +! int 2)
                         (int p_size +! int 3)) ;;
    put_index (_patch_2d (int x) (int p_size +! int 1)
                         (int p_size +! int 3)) ;;
    put_m ;;
    put_index (_patch_2d (int x) (int p_size +! int 1)
                         (int p_size +! int 3)) ;;
    put_index (_patch_2d (int x +! int 1) (int p_size +! int 1)
                         (int p_size +! int 3)) ;;
    put_m ;;
    put_index (_patch_2d (int x +! int 1) (int p_size +! int 1)
                         (int p_size +! int 3)) ;;
    put_index (_patch_2d (int x +! int 1) (int p_size +! int 2)
                         (int p_size +! int 3)) ;;
    put_m_incr ;;
    ret Continue).

(** Lines 76-91: every vertex write, through the counter [n]. *)
Definition fill_vertices (p_size : Z) (offset : Vector3) : M Locals unit :=
  set_n (int 0) ;;
  grid_vertices p_size offset ;;
  column_strip_vertices p_size offset ;;
  row_strip_vertices p_size offset.

(** Lines 93-131: every index write, through the same counter. *)
Definition fill_indices (p_size : Z) : M Locals unit :=
  set_n (int 0) ;;
  grid_indices p_size ;;
  set_m ((int p_size +! int 3) *! (int p_size +! int 3) -! int 1) ;;
  column_strip_indices p_size ;;
  row_strip_indices p_size.

(** Lines 70-73: the two arrays are declared and sized. *)
Definition declare_buffers (p_size : Z) : M Locals unit :=
  resize_vertices ((int p_size +! int 3) *! (int p_size +! int 3)
                   +! (int p_size +! int 1) *! int 2 -! int 1) ;;
  resize_indices ((int p_size +! int 1) *! (int p_size +! int 1) *! int 6
                  +! (int p_size +! int 1) *! int 9 *! int 2).

(** Line 75: the offset, from the negated size. *)
Definition compute_offset (p_size : Z) : M Locals Vector3 :=
  np <- eval (ineg (int p_size)) ;;
  ret (offset_from np).

(** Lines 70-131: the tile block up to the box and the call of
    [_create_mesh]; it hands back the offset. *)
Definition tile_buffers (p_size : Z) : M Locals Vector3 :=
  declare_buffers p_size ;;
  offset <- compute_offset p_size ;;
  fill_vertices p_size offset ;;
  fill_indices p_size ;;
  ret offset.

(** Runs a block on locals of its own and hands back its result and
    what the locals hold at its end. *)
Definition block {W A} (c : M Locals A) : M W (A * Locals) :=
  fun w => match c init_locals with
           | Some r => Some (r, w)
           | None => None
           end.

Definition generate (p_size p_levels : Z) : M World (list RID) :=
  LOG (LogGenerating p_size p_levels) ;;
  r <- block (tile_buffers p_size) ;;
  let offset := fst r in
  let l := snd r in
  sx <- eval (int p_size +! int 2) ;;
  sz <- eval (int p_size +! int 2) ;;
  let aabb := mkAABB offset (Vector3i sx 1 sz) in
  tile_mesh <- _create_mesh (vertices l) (indices l) aabb ;;
  let meshes := [tile_mesh] in
  ret meshes.

(** ** Reading a tile back from the rendering server *)

Record Tile : Type := mkTile {
  tile_vertices : Packed Vector3;
  tile_indices : Packed Z;
  tile_normals : Packed Vector3;
  tile_tangents : Packed Q;
  tile_aabb : AABB
}.

(** The mesh behind a handle, when it has one surface of triangles with
    the four attribute arrays and a custom box. *)
Definition tile_of (w : World) (mesh : RID) : option Tile :=
  match meshes (RS w) !! mesh with
  | Some (mkMesh [mkSurface PRIMITIVE_TRIANGLES arrays] (Some box)) =>
      match arrays !! ARRAY_VERTEX, arrays !! ARRAY_INDEX,
            arrays !! ARRAY_NORMAL, arrays !! ARRAY_TANGENT with
      | Some (VPackedVector3Array v), Some (VPackedInt32Array i),
        Some (VPackedVector3Array nm), Some (VPackedFloat32Array t) =>
          Some (mkTile v i nm t box)
      | _, _, _, _ => None
      end
  | _ => None
  end.

(** The values of an array whose slots are all written. *)
Fixpoint pa_values {A} (arr : Packed A) : option (list A) :=
  match arr with
  | [] => Some []
  | Some a :: arr' =>
      match pa_values arr' with
      | Some l => Some (a :: l)
      | None => None
      end
  | None :: _ => None
  end.

(** ** Triangles of an index list *)

Definition Triangle : Type := Z * Z * Z.

Definition tri_indices (t : Triangle) : list Z :=
  let '(a, b, c) := t in [a; b; c].

(** A triangle list reads its indices three at a time. *)
Fixpoint triangles (l : list Z) : list Triangle :=
  match l with
  | a :: b :: c :: l' => (a, b, c) :: triangles l'
  | _ => []
  end.

Definition apex (t : Triangle) : Z := snd t.

Definition vertex_count (p_size : Z) : Z :=
  (p_size + 3) * (p_size + 3) - 1 + 2 * (p_size + 1).

Definition index_count (p_size : Z) : Z :=
  6 * ((p_size + 1) * (p_size + 1)) + 18 * (p_size + 1).

(** ** The buffers as lists

    What the loops write, in the order they write it. *)

Definition grid_vertex (offset : Vector3) (x y : Z) : Vector3 :=
  v3_add (Vector3i x 0 y) offset.

Definition column_strip_vertex (p_size : Z) (offset : Vector3) (y : Z)
  : Vector3 :=
  v3_add (mkVector3 (inject_Z (p_size + 2)) 0 (inject_Z y + (1 # 2))%Q) offset.

Definition row_strip_vertex (p_size : Z) (offset : Vector3) (x : Z)
  : Vector3 :=
  v3_add (mkVector3 (inject_Z x + (1 # 2))%Q 0 (inject_Z (p_size + 2))) offset.

Definition grid_row (offset : Vector3) (y len : Z) : list Vector3 :=
  (fun x => grid_vertex offset x y) <$> seqZ 0 len.

(** The last row stops one vertex short. *)
Definition row_len (p_size y : Z) : Z :=
  if y =? p_size + 2 then p_size + 2 else p_size + 3.

Definition grid_rows (p_size : Z) (offset : Vector3) (k : Z) : list Vector3 :=
  flat_map (fun y => grid_row offset y (row_len p_size y)) (seqZ 0 k).

Definition column_strip (p_size : Z) (offset : Vector3) (k : Z)
  : list Vector3 :=
  column_strip_vertex p_size offset <$> seqZ 0 k.

Definition row_strip (p_size : Z) (offset : Vector3) (k : Z)
  : list Vector3 :=
  row_strip_vertex p_size offset <$> seqZ 0 k.

Definition vertex_list (p_size : Z) (offset : Vector3) : list Vector3 :=
  grid_rows p_size offset (p_size + 3)
  ++ column_strip p_size offset (p_size + 1)
  ++ row_strip p_size offset (p_size + 1).

Definition cell_triangles (p_size x y : Z) : list Triangle :=
  [ (patch x y (p_size + 3),
     patch (x + 1) (y + 1) (p_size + 3),
     patch x (y + 1) (p_size + 3));
    (patch x y (p_size + 3),
     patch (x + 1) y (p_size + 3),
     patch (x + 1) (y + 1) (p_size + 3)) ].

Definition grid_row_triangles (p_size y k : Z) : list Triangle :=
  flat_map (fun x => cell_triangles p_size x y) (seqZ 0 k).

Definition grid_triangles (p_size k : Z) : list Triangle :=
  flat_map (fun y => grid_row_triangles p_size y (p_size + 1)) (seqZ 0 k).

(** The apex counter starts at [m0] and has advanced by one for every
    segment already stitched. *)
Definition m0 (p_size : Z) : Z := (p_size + 3) * (p_size + 3) - 1.

Definition column_segment (p_size y : Z) : list Triangle :=
  [ (patch (p_size + 1) y (p_size + 3),
     patch (p_size + 2) y (p_size + 3),
     m0 p_size + y);
    (patch (p_size + 1) (y + 1) (p_size + 3),
     patch (p_size + 1) y (p_size + 3),
     m0 p_size + y);
    (patch (p_size + 2) (y + 1) (p_size + 3),
     patch (p_size + 1) (y + 1) (p_size + 3),
     m0 p_size + y) ].

Definition row_segment (p_size x : Z) : list Triangle :=
  [ (patch x (p_size + 2) (p_size + 3),
     patch x (p_size + 1) (p_size + 3),
     m0 p_size + (p_size + 1) + x);
    (patch x (p_size + 1) (p_size + 3),
     patch (x + 1) (p_size + 1) (p_size + 3),
     m0 p_size + (p_size + 1) + x);
    (patch (x + 1) (p_size + 1) (p_size + 3),
     patch (x + 1) (p_size + 2) (p_size + 3),
     m0 p_size + (p_size + 1) + x) ].

Definition column_triangles (p_size k : Z) : list Triangle :=
  flat_map (column_segment p_size) (seqZ 0 k).

Definition row_triangles (p_size k : Z) : list Triangle :=
  flat_map (row_segment p_size) (seqZ 0 k).

Definition triangle_list (p_size : Z) : list Triangle :=
  grid_triangles p_size (p_size + 1)
  ++ column_triangles p_size (p_size + 1)
  ++ row_triangles p_size (p_size + 1).

Definition index_list (p_size : Z) : list Z :=
  flat_map tri_indices (triangle_list p_size).

(** An array of [cap] slots whose leading slots hold [w] and whose other
    slots are still unwritten. *)
Definition filling {A} (cap : Z) (w : list A) : Packed A :=
  (Some <$> w) ++ replicate (Z.to_nat (cap - Z.of_nat (length w))) None.

(** The locals while the vertex loops run, and while the index loops
    run. *)
Definition vstate (p_size : Z) (w : list Vector3) : Locals :=
  mkLocals (filling (vertex_count p_size) w)
           (filling (index_count p_size) [])
           (Z.of_nat (length w)) 0
           (seqZ 0 (Z.of_nat (length w))) [].

Definition istate (p_size : Z) (offset : Vector3) (mv : Z) (w : list Z)
  : Locals :=
  mkLocals (Some <$> vertex_list p_size offset)
           (filling (index_count p_size) w)
           (Z.of_nat (length w)) mv
           (seqZ 0 (vertex_count p_size))
           (seqZ 0 (Z.of_nat (length w))).

(** ** What the claims are stated on *)

(** The locals when the last stitch loop has ended. *)
Definition final_locals (p_size : Z) (offset : Vector3) : Locals :=
  mkLocals (Some <$> vertex_list p_size offset)
           (Some <$> index_list p_size)
           (index_count p_size) (vertex_count p_size)
           (seqZ 0 (vertex_count p_size)) (seqZ 0 (index_count p_size)).

Definition up_normals (k : nat) : Packed Vector3 :=
  replicate k (Some (Vector3i 0 1 0)).

Definition zero_tangents (k : nat) : Packed Q :=
  replicate (k * 4) (Some 0%Q).

(** The mesh that [_create_mesh] leaves in the table. *)
Definition created_tile (p_vertices : Packed Vector3) (p_indices : Packed Z)
    (p_aabb : AABB) : Tile :=
  mkTile p_vertices p_indices
         (up_normals (length p_vertices)) (zero_tangents (length p_vertices))
         p_aabb.

(** The tile that [generate] hands to the rendering server. *)
Definition generated_tile (p_size : Z) : Tile :=
  created_tile (Some <$> vertex_list p_size (tile_offset p_size))
               (Some <$> index_list p_size)
               (mkAABB (tile_offset p_size)
                       (Vector3i (p_size + 2) 1 (p_size + 2))).

(** [generate], read through the one handle it returns. *)
Definition generate_tile (p_size p_levels : Z) (w : World) : option Tile :=
  match generate p_size p_levels w with
  | Some ([mesh], w') => tile_of w' mesh
  | _ => None
  end.

Definition empty_world : World := mkWorld (mkRS ∅ 1%N) [].

(** The handles the server has not given out yet are not in use: every
    mesh it holds sits below its counter.  The empty server is so, and
    every call of the server keeps it so. *)
Definition fresh_handles (rs : RenderingServer) : Prop :=
  forall rid, (next_rid rs <= rid)%N -> meshes rs !! rid = None.

(** The triangles of a tile, and the three runs they come in: the grid
    cells, the strip along the last column and the strip along the last
    row. *)
Definition tile_triangles (t : Tile) : list Triangle :=
  match pa_values (tile_indices t) with
  | Some l => triangles l
  | None => []
  end.

Definition grid_part (p_size : Z) (ts : list Triangle) : list Triangle :=
  take (Z.to_nat (2 * ((p_size + 1) * (p_size + 1)))) ts.

Definition column_part (p_size : Z) (ts : list Triangle) : list Triangle :=
  take (Z.to_nat (3 * (p_size + 1)))
       (drop (Z.to_nat (2 * ((p_size + 1) * (p_size + 1)))) ts).

Definition row_part (p_size : Z) (ts : list Triangle) : list Triangle :=
  drop (Z.to_nat (3 * (p_size + 1)))
       (drop (Z.to_nat (2 * ((p_size + 1) * (p_size + 1)))) ts).

(** [i] is the index of one of the four corners of cell [(x, y)]. *)
Definition is_corner (p_size x y i : Z) : bool :=
  (i =? patch x y (p_size + 3))
  || (i =? patch (x + 1) y (p_size + 3))
  || (i =? patch x (y + 1) (p_size + 3))
  || (i =? patch (x + 1) (y + 1) (p_size + 3)).

(** A triangle lies in cell [(x, y)] when its three corners are corners
    of the cell. *)
Definition in_cell (p_size x y : Z) (tr : Triangle) : bool :=
  forallb (is_corner p_size x y) (tri_indices tr).

(** The cross product of the edge vectors of a triangle, second vertex
    minus first crossed with third vertex minus first. *)
Definition tri_normal (verts : Packed Vector3) (tr : Triangle)
  : option Vector3 :=
  let '(a, b, c) := tr in
  match pa_get verts a, pa_get verts b, pa_get verts c with
  | Some (Some pa), Some (Some pb), Some (Some pc) =>
      Some (v3_cross (v3_sub pb pa) (v3_sub pc pa))
  | _, _, _ => None
  end.

(** [AABB::has_point]: the box holds [v], its faces included. *)
Definition in_box (b : AABB) (v : Vector3) : Prop :=
  (vx (position b) <= vx v <= vx (position b) + vx (size b))%Q
  /\ (vy (position b) <= vy v <= vy (position b) + vy (size b))%Q
  /\ (vz (position b) <= vz v <= vz (position b) + vz (size b))%Q.

(** Twice the grid coordinates of the vertex that slot [i] receives: the
    grid slots row by row, then the column strip, then the row strip. *)
Definition vertex_key (p_size i : Z) : Z * Z :=
  if i <? m0 p_size then
    (2 * (i mod (p_size + 3)), 2 * (i / (p_size + 3)))
  else if i <? m0 p_size + (p_size + 1) then
    (2 * (p_size + 2), 2 * (i - m0 p_size) + 1)
  else
    (2 * (i - m0 p_size - (p_size + 1)) + 1, 2 * (p_size + 2)).

(** A value that single precision holds exactly: half an integer, the
    integer below 2^24 in magnitude. *)
Definition exact_single (q : Q) : Prop :=
  exists k : Z, -16777216 < k < 16777216 /\ (2 * q == inject_Z k)%Q.

(** The cross product of a stitch triangle points straight down, with
    length 1 or 1/2. *)
Definition stitch_normal (nrm : Vector3) : Prop :=
  (vx nrm == 0)%Q /\ (vz nrm == 0)%Q
  /\ ((vy nrm == -1)%Q \/ (vy nrm == - (1 # 2))%Q).

(** ** Lists over a range *)

Lemma seqZ_snoc (k : Z) : 0 <= k -> seqZ 0 (k + 1) = seqZ 0 k ++ [k].
Proof.
  intros Hk. rewrite seqZ_app by lia. reflexivity.
Qed.

Lemma flat_map_snoc {A} (f : Z -> list A) (k : Z) :
  0 <= k -> flat_map f (seqZ 0 (k + 1)) = flat_map f (seqZ 0 k) ++ f k.
Proof.
  intros Hk. rewrite seqZ_snoc, flat_map_app by lia. simpl.
  now rewrite app_nil_r.
Qed.

Lemma fmap_snoc {A} (f : Z -> A) (k : Z) :
  0 <= k -> f <$> seqZ 0 (k + 1) = (f <$> seqZ 0 k) ++ [f k].
Proof. intros Hk. now rewrite seqZ_snoc, fmap_app by lia. Qed.

Lemma length_flat_map_seqZ {A} (f : Z -> list A) (c k : Z) :
  0 <= k ->
  (forall i, 0 <= i < k -> Z.of_nat (length (f i)) = c) ->
  Z.of_nat (length (flat_map f (seqZ 0 k))) = k * c.
Proof.
  intros Hk. pattern k. apply natlike_ind; [| |exact Hk]; clear k Hk.
  - intros _. reflexivity.
  - intros k Hk IH Hf. unfold Z.succ.
    rewrite flat_map_snoc, length_app, Nat2Z.inj_add by lia.
    rewrite IH, Hf by (try intros; try apply Hf; lia). lia.
Qed.

(** Reading position [i * c + j] of [k] blocks of [c] elements each. *)
Lemma lookup_flat_map_seqZ {A} (f : Z -> list A) (c : nat) (k i : Z) (j : nat) :
  (forall i, 0 <= i < k -> length (f i) = c) ->
  0 <= i < k -> (j < c)%nat ->
  flat_map f (seqZ 0 k) !! (Z.to_nat i * c + j)%nat = f i !! j.
Proof.
  intros Hf Hi Hj.
  assert (Hk : 0 <= k) by lia. revert Hf Hi.
  pattern k. apply natlike_ind; [| |exact Hk]; clear k Hk.
  - lia.
  - intros k Hk IH Hf Hi. unfold Z.succ in *.
    assert (Hlen : length (flat_map f (seqZ 0 k)) = (Z.to_nat k * c)%nat).
    { apply Nat2Z.inj. rewrite (length_flat_map_seqZ f (Z.of_nat c)); try lia.
      intros i' Hi'. f_equal. apply Hf. lia. }
    rewrite flat_map_snoc by lia.
    destruct (decide (i = k)) as [->|Hne].
    + rewrite lookup_app_r by lia. f_equal. lia.
    + rewrite lookup_app_l.
      * apply IH; [intros; apply Hf|]; lia.
      * rewrite Hlen. 
        assert (Z.to_nat i + 1 <= Z.to_nat k)%nat by lia. nia.
Qed.

(** ** [int] expressions that fit *)

Lemma int_ok (z : Z) : -2147483648 <= z <= 2147483647 -> int z = Some z.
Proof.
  intros Hz. unfold int, in_int, INT_MIN, INT_MAX.
  destruct (Z.leb_spec (-2147483648) z); [|lia].
  destruct (Z.leb_spec z 2147483647); [reflexivity|lia].
Qed.

Lemma int_Some (z v : Z) :
  int z = Some v -> v = z /\ -2147483648 <= z <= 2147483647.
Proof.
  unfold int, in_int, INT_MIN, INT_MAX.
  destruct (Z.leb_spec (-2147483648) z); [|discriminate].
  destruct (Z.leb_spec z 2147483647); [|discriminate].
  intros [= <-]. lia.
Qed.

Lemma iadd_ok (a b : Z) :
  -2147483648 <= a + b <= 2147483647 -> Some a +! Some b = Some (a + b).
Proof. apply int_ok. Qed.

Lemma isub_ok (a b : Z) :
  -2147483648 <= a - b <= 2147483647 -> Some a -! Some b = Some (a - b).
Proof. apply int_ok. Qed.

Lemma imul_ok (a b : Z) :
  -2147483648 <= a * b <= 2147483647 -> Some a *! Some b = Some (a * b).
Proof. apply int_ok. Qed.

Lemma ineg_ok (a : Z) :
  -2147483648 <= - a <= 2147483647 -> ineg (Some a) = Some (- a).
Proof. apply int_ok. Qed.

Lemma iadd_Some (a b : option Z) (v : Z) :
  a +! b = Some v ->
  exists x y, a = Some x /\ b = Some y /\ v = x + y
              /\ -2147483648 <= x + y <= 2147483647.
Proof.
  destruct a as [x|], b as [y|]; try discriminate.
  intros H. apply int_Some in H. exists x, y. tauto.
Qed.

Lemma isub_Some (a b : option Z) (v : Z) :
  a -! b = Some v ->
  exists x y, a = Some x /\ b = Some y /\ v = x - y
              /\ -2147483648 <= x - y <= 2147483647.
Proof.
  destruct a as [x|], b as [y|]; try discriminate.
  intros H. apply int_Some in H. exists x, y. tauto.
Qed.

Lemma imul_Some (a b : option Z) (v : Z) :
  a *! b = Some v ->
  exists x y, a = Some x /\ b = Some y /\ v = x * y
              /\ -2147483648 <= x * y <= 2147483647.
Proof.
  destruct a as [x|], b as [y|]; try discriminate.
  intros H. apply int_Some in H. exists x, y. tauto.
Qed.

(** Products and indices of a grid of at most 18919 columns fit. *)
Lemma patch_fits (x y width : Z) :
  0 <= x <= 18919 -> 0 <= y <= 18919 -> 0 <= width <= 18919 ->
  _patch_2d (Some x) (Some y) (Some width) = Some (patch x y width).
Proof.
  intros Hx Hy Hw. unfold _patch_2d, patch.
  rewrite imul_ok by nia. rewrite iadd_ok by nia. reflexivity.
Qed.

(** Rewrites the [int] expressions of the goal that fit to their
    values. *)
Ltac int_eval :=
  rewrite ?int_ok by lia;
  repeat first [rewrite iadd_ok by lia | rewrite patch_fits by lia].

(** ** Running loops *)

Section Loops.
Context {St : Type}.

Lemma bind_ret_run {A B} (c : M St A) (k : A -> M St B) (s s' : St) (a : A) :
  c s = Some (a, s') -> bind c k s = k a s'.
Proof. unfold bind. now intros ->. Qed.

Lemma bind_eval_Some {A B} (a : A) (k : A -> M St B) (s : St) :
  bind (eval (Some a)) k s = k a s.
Proof. reflexivity. Qed.

(** A loop whose iterations all run to their end walks a family of
    states from [P lo] to [P hi]. *)
Lemma for_range_steps (P : Z -> St) (lo hi : Z) (body : Z -> M St ctl) :
  -2147483648 <= lo -> hi <= 2147483647 -> lo <= hi ->
  (forall i, lo <= i < hi -> body i (P i) = Some (Continue, P (i + 1))) ->
  for_range lo (Some hi) body (P lo) = Some (tt, P hi).
Proof.
  intros Hmin Hmax Hle Hbody. unfold for_range. rewrite bind_eval_Some.
  remember (Z.to_nat (hi - lo)) as fuel eqn:Hfuel.
  revert lo Hmin Hle Hbody Hfuel.
  induction fuel as [|fuel IH]; intros lo Hmin Hle Hbody Hfuel.
  - assert (lo = hi) as -> by lia. cbn [for_fuel].
    now rewrite Z.ltb_irrefl.
  - cbn [for_fuel]. destruct (Z.ltb_spec lo hi) as [Hlt|Hge]; [|lia].
    rewrite (bind_ret_run _ _ _ _ _ (Hbody lo ltac:(lia))).
    rewrite !int_ok, iadd_ok, bind_eval_Some by lia.
    apply IH; [lia|lia| |lia].
    intros i Hi. apply Hbody. lia.
Qed.

(** A loop that reaches a [break] at iteration [k] stops with the state
    that iteration leaves. *)
Lemma for_range_break (P : Z -> St) (lo k hi : Z) (body : Z -> M St ctl)
    (s' : St) :
  -2147483648 <= lo -> hi <= 2147483647 -> lo <= k < hi ->
  (forall i, lo <= i < k -> body i (P i) = Some (Continue, P (i + 1))) ->
  body k (P k) = Some (Break, s') ->
  for_range lo (Some hi) body (P lo) = Some (tt, s').
Proof.
  intros Hmin Hmax Hk Hbody Hbreak. unfold for_range.
  rewrite bind_eval_Some.
  assert (Hfuel : (Z.to_nat (k - lo) < Z.to_nat (hi - lo))%nat) by lia.
  revert Hfuel. generalize (Z.to_nat (hi - lo)) as fuel.
  remember (Z.to_nat (k - lo)) as d eqn:Hd.
  revert lo Hmin Hk Hbody Hd.
  induction d as [|d IH]; intros lo Hmin Hk Hbody Hd fuel Hfuel.
  - assert (lo = k) as -> by lia.
    destruct fuel as [|fuel]; [lia|]. cbn [for_fuel].
    destruct (Z.ltb_spec k hi) as [Hlt|Hge]; [|lia].
    now rewrite (bind_ret_run _ _ _ _ _ Hbreak).
  - destruct fuel as [|fuel]; [lia|]. cbn [for_fuel].
    destruct (Z.ltb_spec lo hi) as [Hlt|Hge]; [|lia].
    rewrite (bind_ret_run _ _ _ _ _ (Hbody lo ltac:(lia))).
    rewrite !int_ok, iadd_ok, bind_eval_Some by lia.
    apply IH; [lia|lia| |lia|lia].
    intros i Hi. apply Hbody. lia.
Qed.

(** A loop whose bound is not above its start does nothing. *)
Lemma for_range_empty (lo hi : Z) (body : Z -> M St ctl) (s : St) :
  hi <= lo -> for_range lo (Some hi) body s = Some (tt, s).
Proof.
  intros Hle. unfold for_range. rewrite bind_eval_Some.
  replace (Z.to_nat (hi - lo)) with 0%nat by lia. cbn [for_fuel].
  now destruct (Z.ltb_spec lo hi) as [?|_]; [lia|].
Qed.
End Loops.

(** ** Writing through the counter *)

Lemma pa_resize_nil {A} (cap : Z) :
  0 <= cap -> pa_resize cap ([] : Packed A) = filling cap [].
Proof.
  intros Hcap. unfold pa_resize, filling.
  destruct (Z.ltb_spec cap 0) as [?|_]; [lia|].
  rewrite take_nil. simpl. do 2 f_equal. lia.
Qed.

Lemma length_filling {A} (cap : Z) (w : list A) :
  Z.of_nat (length w) <= cap -> pa_size (filling cap w) = cap.
Proof.
  intros Hle. unfold pa_size, filling.
  rewrite length_app, length_fmap, length_replicate. lia.
Qed.

Lemma filling_full {A} (cap : Z) (w : list A) :
  Z.of_nat (length w) = cap -> filling cap w = Some <$> w.
Proof.
  intros <-. unfold filling. rewrite Z.sub_diag. simpl. apply app_nil_r.
Qed.

Lemma pa_set_filling {A} (cap : Z) (w : list A) (v : A) :
  Z.of_nat (length w) < cap ->
  pa_set (filling cap w) (Z.of_nat (length w)) v = Some (filling cap (w ++ [v])).
Proof.
  intros Hlt. unfold pa_set. rewrite length_filling by lia.
  destruct (Z.leb_spec 0 (Z.of_nat (length w))) as [_|?]; [|lia].
  destruct (Z.ltb_spec (Z.of_nat (length w)) cap) as [_|?]; [|lia].
  simpl. f_equal. unfold filling.
  rewrite Nat2Z.id, length_app, fmap_app, <- app_assoc. simpl.
  replace (Z.to_nat (cap - Z.of_nat (length w)))
    with (S (Z.to_nat (cap - Z.of_nat (length w + 1)%nat))) by lia.
  rewrite <- (length_fmap Some w) at 1.
  now rewrite insert_app_r_alt, Nat.sub_diag by lia.
Qed.

(** The sizes of a tile of at most 18916 cells a side fit an [int]. *)
Lemma size_bounds (p_size : Z) :
  0 <= p_size <= 18916 ->
  0 <= m0 p_size
  /\ m0 p_size + 2 * (p_size + 1) = vertex_count p_size
  /\ vertex_count p_size <= index_count p_size
  /\ index_count p_size <= 2147483647.
Proof.
  intros Hsz. unfold m0, vertex_count, index_count. repeat split; nia.
Qed.

Lemma put_vertex_vstate (p_size : Z) (w : list Vector3) (v : Vector3) :
  vertex_count p_size <= 2147483647 ->
  Z.of_nat (length w) < vertex_count p_size ->
  put_vertex v (vstate p_size w) = Some (tt, vstate p_size (w ++ [v])).
Proof.
  intros Hmax Hlt. unfold put_vertex, vstate.
  cbn [vertices indices n m vwrites iwrites].
  rewrite pa_set_filling, !int_ok, iadd_ok by lia. do 2 f_equal.
  rewrite length_app. cbn [length].
  replace (Z.of_nat (length w + 1)) with (Z.of_nat (length w) + 1) by lia.
  now rewrite seqZ_snoc by lia.
Qed.

Lemma put_index_istate (p_size : Z) (offset : Vector3) (mv : Z)
    (w : list Z) (i : Z) :
  index_count p_size <= 2147483647 ->
  Z.of_nat (length w) < index_count p_size ->
  put_index (Some i) (istate p_size offset mv w)
  = Some (tt, istate p_size offset mv (w ++ [i])).
Proof.
  intros Hmax Hlt. unfold put_index. rewrite bind_eval_Some.
  unfold istate. cbn [vertices indices n m vwrites iwrites].
  rewrite pa_set_filling, !int_ok, iadd_ok by lia. do 2 f_equal.
  rewrite length_app. cbn [length].
  replace (Z.of_nat (length w + 1)) with (Z.of_nat (length w) + 1) by lia.
  now rewrite seqZ_snoc by lia.
Qed.

(** ** The vertex loops *)

Lemma length_grid_row (offset : Vector3) (y len : Z) :
  0 <= len -> Z.of_nat (length (grid_row offset y len)) = len.
Proof.
  intros Hlen. unfold grid_row. rewrite length_fmap, length_seqZ. lia.
Qed.

Lemma length_grid_rows (p_size : Z) (offset : Vector3) (y : Z) :
  0 <= p_size -> 0 <= y <= p_size + 2 ->
  Z.of_nat (length (grid_rows p_size offset y)) = y * (p_size + 3).
Proof.
  intros Hsz Hy. unfold grid_rows.
  apply length_flat_map_seqZ; [lia|].
  intros i Hi. unfold row_len.
  destruct (Z.eqb_spec i (p_size + 2)) as [?|_]; [lia|].
  apply length_grid_row. lia.
Qed.

Lemma grid_rows_last (p_size : Z) (offset : Vector3) :
  0 <= p_size ->
  grid_rows p_size offset (p_size + 3)
  = grid_rows p_size offset (p_size + 2)
    ++ grid_row offset (p_size + 2) (p_size + 2).
Proof.
  intros Hsz. unfold grid_rows.
  replace (p_size + 3) with (p_size + 2 + 1) by lia.
  rewrite flat_map_snoc by lia. unfold row_len.
  now rewrite Z.eqb_refl.
Qed.

Lemma length_grid (p_size : Z) (offset : Vector3) :
  0 <= p_size ->
  Z.of_nat (length (grid_rows p_size offset (p_size + 3))) = m0 p_size.
Proof.
  intros Hsz. rewrite grid_rows_last, length_app, Nat2Z.inj_add by lia.
  rewrite length_grid_rows, length_grid_row by lia. unfold m0. lia.
Qed.

Lemma length_vertex_list (p_size : Z) (offset : Vector3) :
  0 <= p_size ->
  Z.of_nat (length (vertex_list p_size offset)) = vertex_count p_size.
Proof.
  intros Hsz. unfold vertex_list, column_strip, row_strip.
  rewrite !length_app, !Nat2Z.inj_add, length_grid by lia.
  rewrite !length_fmap, !length_seqZ. unfold vertex_count, m0. lia.
Qed.

(** One row of the grid, which the last row leaves early. *)
Lemma grid_row_run (p_size : Z) (offset : Vector3) (y : Z) :
  0 <= p_size <= 18916 -> 0 <= y < p_size + 3 ->
  grid_vertices_row p_size offset y
    (vstate p_size (grid_rows p_size offset y))
  = Some (tt, vstate p_size (grid_rows p_size offset (y + 1))).
Proof.
  intros Hsz Hy.
  pose proof (size_bounds p_size Hsz) as (Hm0 & Hvc & Hle & Hic).
  unfold grid_vertices_row. int_eval.
  pose (Q := fun x => vstate p_size (grid_rows p_size offset y
                                     ++ grid_row offset y x)).
  match goal with
  | |- for_range 0 (Some _) ?body _ = _ =>
      assert (Hstep : forall x, 0 <= x < row_len p_size y ->
                body x (Q x) = Some (Continue, Q (x + 1)))
  end.
  { intros x Hx. unfold row_len in Hx. cbv beta.
    rewrite bind_eval_Some. cbv beta.
    assert ((x =? p_size + 2) && (y =? p_size + 2) = false) as ->.
    { destruct (Z.eqb_spec y (p_size + 2)); [|apply andb_false_r].
      destruct (Z.eqb_spec x (p_size + 2)); [lia|reflexivity]. }
    unfold Q. erewrite bind_ret_run; [reflexivity|].
    rewrite put_vertex_vstate.
    - unfold grid_row. now rewrite fmap_snoc, app_assoc by lia.
    - lia.
    - rewrite length_app, Nat2Z.inj_add, length_grid_row by lia.
      destruct (Z.eqb_spec y (p_size + 2)) as [->|Hne].
      + rewrite length_grid_rows by lia. unfold vertex_count. nia.
      + rewrite length_grid_rows by lia. unfold vertex_count. nia. }
  replace (vstate p_size (grid_rows p_size offset y)) with (Q 0)
    by (unfold Q, grid_row; now rewrite app_nil_r).
  replace (vstate p_size (grid_rows p_size offset (y + 1)))
    with (Q (row_len p_size y))
    by (unfold Q, grid_rows; now rewrite flat_map_snoc by lia).
  unfold row_len in *. destruct (Z.eqb_spec y (p_size + 2)) as [->|Hne].
  - apply (for_range_break Q 0 (p_size + 2)); [lia|lia|lia|exact Hstep|].
    rewrite bind_eval_Some. now rewrite !Z.eqb_refl.
  - apply (for_range_steps Q); [lia|lia|lia|exact Hstep].
Qed.

Lemma grid_vertices_run (p_size : Z) (offset : Vector3) :
  0 <= p_size <= 18916 ->
  grid_vertices p_size offset (vstate p_size [])
  = Some (tt, vstate p_size (grid_rows p_size offset (p_size + 3))).
Proof.
  intros Hsz. unfold grid_vertices. int_eval.
  apply (for_range_steps (fun y => vstate p_size (grid_rows p_size offset y)));
    [lia|lia|lia|].
  intros y Hy. erewrite bind_ret_run; [reflexivity|].
  apply grid_row_run; lia.
Qed.

Lemma column_strip_vertices_run (p_size : Z) (offset : Vector3) :
  0 <= p_size <= 18916 ->
  column_strip_vertices p_size offset
    (vstate p_size (grid_rows p_size offset (p_size + 3)))
  = Some (tt, vstate p_size (grid_rows p_size offset (p_size + 3)
                             ++ column_strip p_size offset (p_size + 1))).
Proof.
  intros Hsz.
  pose proof (size_bounds p_size Hsz) as (Hm0 & Hvc & Hle & Hic).
  unfold column_strip_vertices. int_eval.
  pose (Q := fun y => vstate p_size (grid_rows p_size offset (p_size + 3)
                                     ++ column_strip p_size offset y)).
  replace (vstate p_size (grid_rows p_size offset (p_size + 3))) with (Q 0)
    by (unfold Q, column_strip; now rewrite app_nil_r).
  apply (for_range_steps Q); [lia|lia|lia|].
  intros y Hy. unfold Q. rewrite bind_eval_Some.
  erewrite bind_ret_run; [reflexivity|].
  rewrite put_vertex_vstate.
  - unfold column_strip. now rewrite fmap_snoc, app_assoc by lia.
  - lia.
  - unfold column_strip.
    rewrite length_app, Nat2Z.inj_add, length_grid by lia.
    rewrite length_fmap, length_seqZ. lia.
Qed.

Lemma row_strip_vertices_run (p_size : Z) (offset : Vector3) :
  0 <= p_size <= 18916 ->
  row_strip_vertices p_size offset
    (vstate p_size (grid_rows p_size offset (p_size + 3)
                    ++ column_strip p_size offset (p_size + 1)))
  = Some (tt, vstate p_size (vertex_list p_size offset)).
Proof.
  intros Hsz.
  pose proof (size_bounds p_size Hsz) as (Hm0 & Hvc & Hle & Hic).
  unfold row_strip_vertices, vertex_list. int_eval.
  pose (Q := fun x => vstate p_size (grid_rows p_size offset (p_size + 3)
                                     ++ column_strip p_size offset (p_size + 1)
                                     ++ row_strip p_size offset x)).
  replace (vstate p_size (grid_rows p_size offset (p_size + 3)
                          ++ column_strip p_size offset (p_size + 1)))
    with (Q 0) by (unfold Q, row_strip; now rewrite app_nil_r).
  apply (for_range_steps Q); [lia|lia|lia|].
  intros x Hx. unfold Q. rewrite bind_eval_Some.
  erewrite bind_ret_run; [reflexivity|].
  rewrite put_vertex_vstate.
  - unfold row_strip. now rewrite fmap_snoc, !app_assoc by lia.
  - lia.
  - unfold column_strip, row_strip.
    rewrite !length_app, !Nat2Z.inj_add, length_grid by lia.
    rewrite !length_fmap, !length_seqZ. lia.
Qed.

Lemma fill_vertices_run (p_size : Z) (offset : Vector3) :
  0 <= p_size <= 18916 ->
  fill_vertices p_size offset (vstate p_size [])
  = Some (tt, vstate p_size (vertex_list p_size offset)).
Proof.
  intros Hsz. unfold fill_vertices.
  erewrite bind_ret_run by reflexivity.
  change (mkLocals _ _ _ _ _ _) with (vstate p_size []).
  erewrite bind_ret_run by (now apply grid_vertices_run).
  erewrite bind_ret_run by (now apply column_strip_vertices_run).
  now apply row_strip_vertices_run.
Qed.

(** ** The index loops *)

Lemma length_tri_indices (ts : list Triangle) :
  Z.of_nat (length (flat_map tri_indices ts)) = 3 * Z.of_nat (length ts).
Proof.
  induction ts as [|[[a b] c] ts IH]; [reflexivity|].
  cbn [flat_map tri_indices app length]. lia.
Qed.

Lemma length_grid_row_triangles (p_size y k : Z) :
  0 <= k -> Z.of_nat (length (grid_row_triangles p_size y k)) = k * 2.
Proof. intros Hk. now apply length_flat_map_seqZ. Qed.

Lemma length_grid_triangles (p_size k : Z) :
  0 <= p_size -> 0 <= k ->
  Z.of_nat (length (grid_triangles p_size k)) = k * ((p_size + 1) * 2).
Proof.
  intros Hsz Hk. apply length_flat_map_seqZ; [lia|].
  intros i _. apply length_grid_row_triangles. lia.
Qed.

Lemma length_column_triangles (p_size k : Z) :
  0 <= k -> Z.of_nat (length (column_triangles p_size k)) = k * 3.
Proof. intros Hk. now apply length_flat_map_seqZ. Qed.

Lemma length_row_triangles (p_size k : Z) :
  0 <= k -> Z.of_nat (length (row_triangles p_size k)) = k * 3.
Proof. intros Hk. now apply length_flat_map_seqZ. Qed.

Lemma length_triangle_list (p_size : Z) :
  0 <= p_size ->
  Z.of_nat (length (triangle_list p_size))
  = 2 * ((p_size + 1) * (p_size + 1)) + 6 * (p_size + 1).
Proof.
  intros Hsz. unfold triangle_list.
  rewrite !length_app, !Nat2Z.inj_add, length_grid_triangles,
    length_column_triangles, length_row_triangles by lia.
  lia.
Qed.

Lemma length_index_list (p_size : Z) :
  0 <= p_size -> Z.of_nat (length (index_list p_size)) = index_count p_size.
Proof.
  intros Hsz. unfold index_list, index_count.
  rewrite length_tri_indices, length_triangle_list by lia. lia.
Qed.

Lemma put_m_istate (p_size : Z) (offset : Vector3) (mv : Z) (w : list Z) :
  index_count p_size <= 2147483647 ->
  Z.of_nat (length w) < index_count p_size ->
  -2147483648 <= mv <= 2147483647 ->
  put_m (istate p_size offset mv w)
  = Some (tt, istate p_size offset mv (w ++ [mv])).
Proof.
  intros Hmax Hlt Hmv. unfold put_m. cbn [m istate].
  rewrite int_ok by lia. now apply put_index_istate.
Qed.

Lemma put_m_incr_istate (p_size : Z) (offset : Vector3) (mv : Z)
    (w : list Z) :
  index_count p_size <= 2147483647 ->
  Z.of_nat (length w) < index_count p_size ->
  -2147483648 <= mv /\ mv + 1 <= 2147483647 ->
  put_m_incr (istate p_size offset mv w)
  = Some (tt, istate p_size offset (mv + 1) (w ++ [mv])).
Proof.
  intros Hmax Hlt Hmv. unfold put_m_incr. cbn [m istate].
  rewrite !int_ok, iadd_ok by lia.
  erewrite bind_ret_run by (now apply put_index_istate). reflexivity.
Qed.

(** Runs the writes at the head of a loop body, one after the other; the
    context bounds the room the body needs. *)
Ltac run_puts :=
  repeat (erewrite bind_ret_run;
          [|first [apply put_m_incr_istate
                  |apply put_m_istate
                  |apply put_index_istate];
            rewrite ?length_app; cbn [length]; lia]).

Lemma grid_row_indices_run (p_size : Z) (offset : Vector3) (y : Z) :
  0 <= p_size <= 18916 -> 0 <= y < p_size + 1 ->
  grid_indices_row p_size y
    (istate p_size offset 0
       (flat_map tri_indices (grid_triangles p_size y)))
  = Some (tt, istate p_size offset 0
                (flat_map tri_indices (grid_triangles p_size (y + 1)))).
Proof.
  intros Hsz Hy.
  pose proof (size_bounds p_size Hsz) as (Hm0 & Hvc & Hle & Hic).
  unfold grid_indices_row. int_eval.
  pose (Q := fun x => istate p_size offset 0
    (flat_map tri_indices (grid_triangles p_size y
                           ++ grid_row_triangles p_size y x))).
  replace (grid_triangles p_size y)
    with (grid_triangles p_size y ++ grid_row_triangles p_size y 0)
    by apply app_nil_r.
  replace (grid_triangles p_size (y + 1))
    with (grid_triangles p_size y ++ grid_row_triangles p_size y (p_size + 1))
    by (unfold grid_triangles; now rewrite flat_map_snoc by lia).
  apply (for_range_steps Q); [lia|lia|lia|].
  intros x Hx. unfold Q. int_eval.
  assert (Hroom : Z.of_nat (length (flat_map tri_indices
              (grid_triangles p_size y ++ grid_row_triangles p_size y x)))
            + 6 <= index_count p_size).
  { rewrite length_tri_indices, length_app, Nat2Z.inj_add,
      length_grid_triangles, length_grid_row_triangles by lia.
    unfold index_count. nia. }
  run_puts.
  unfold grid_row_triangles at 2.
  rewrite flat_map_snoc, app_assoc, (flat_map_app _ _ (cell_triangles _ _ _))
    by lia.
  cbn [flat_map tri_indices cell_triangles app].
  now rewrite <- !app_assoc.
Qed.

Lemma grid_indices_run (p_size : Z) (offset : Vector3) :
  0 <= p_size <= 18916 ->
  grid_indices p_size (istate p_size offset 0 [])
  = Some (tt, istate p_size offset 0
                (flat_map tri_indices (grid_triangles p_size (p_size + 1)))).
Proof.
  intros Hsz. unfold grid_indices. int_eval.
  apply (for_range_steps (fun y => istate p_size offset 0
           (flat_map tri_indices (grid_triangles p_size y))));
    [lia|lia|lia|].
  intros y Hy. erewrite bind_ret_run; [reflexivity|].
  apply grid_row_indices_run; lia.
Qed.

Lemma column_strip_indices_run (p_size : Z) (offset : Vector3) :
  0 <= p_size <= 18916 ->
  column_strip_indices p_size
    (istate p_size offset (m0 p_size)
       (flat_map tri_indices (grid_triangles p_size (p_size + 1))))
  = Some (tt, istate p_size offset (m0 p_size + (p_size + 1))
                (flat_map tri_indices
                   (grid_triangles p_size (p_size + 1)
                    ++ column_triangles p_size (p_size + 1)))).
Proof.
  intros Hsz.
  pose proof (size_bounds p_size Hsz) as (Hm0 & Hvc & Hle & Hic).
  unfold column_strip_indices. int_eval.
  pose (Q := fun y => istate p_size offset (m0 p_size + y)
    (flat_map tri_indices (grid_triangles p_size (p_size + 1)
                           ++ column_triangles p_size y))).
  replace (istate p_size offset (m0 p_size)
             (flat_map tri_indices (grid_triangles p_size (p_size + 1))))
    with (Q 0)
    by (unfold Q, column_triangles; now rewrite app_nil_r, Z.add_0_r).
  apply (for_range_steps Q); [lia|lia|lia|].
  intros y Hy. unfold Q. int_eval.
  assert (Hroom : Z.of_nat (length (flat_map tri_indices
              (grid_triangles p_size (p_size + 1)
               ++ column_triangles p_size y)))
            + 9 <= index_count p_size).
  { rewrite length_tri_indices, length_app, Nat2Z.inj_add,
      length_grid_triangles, length_column_triangles by lia.
    unfold index_count. nia. }
  run_puts.
  unfold column_triangles at 2.
  rewrite flat_map_snoc, app_assoc, (flat_map_app _ _ (column_segment _ _))
    by lia.
  cbn [flat_map tri_indices column_segment app].
  replace (m0 p_size + (y + 1)) with (m0 p_size + y + 1) by lia.
  now rewrite <- !app_assoc.
Qed.

Lemma row_strip_indices_run (p_size : Z) (offset : Vector3) :
  0 <= p_size <= 18916 ->
  row_strip_indices p_size
    (istate p_size offset (m0 p_size + (p_size + 1))
       (flat_map tri_indices
          (grid_triangles p_size (p_size + 1)
           ++ column_triangles p_size (p_size + 1))))
  = Some (tt, istate p_size offset (vertex_count p_size) (index_list p_size)).
Proof.
  intros Hsz.
  pose proof (size_bounds p_size Hsz) as (Hm0 & Hvc & Hle & Hic).
  unfold row_strip_indices, index_list, triangle_list. int_eval.
  pose (Q := fun x => istate p_size offset (m0 p_size + (p_size + 1) + x)
    (flat_map tri_indices (grid_triangles p_size (p_size + 1)
                           ++ column_triangles p_size (p_size + 1)
                           ++ row_triangles p_size x))).
  replace (istate p_size offset (m0 p_size + (p_size + 1)) _) with (Q 0)
    by (unfold Q, row_triangles; now rewrite app_nil_r, Z.add_0_r).
  replace (vertex_count p_size) with (m0 p_size + (p_size + 1) + (p_size + 1))
    by lia.
  apply (for_range_steps Q); [lia|lia|lia|].
  intros x Hx. unfold Q. int_eval.
  assert (Hroom : Z.of_nat (length (flat_map tri_indices
              (grid_triangles p_size (p_size + 1)
               ++ column_triangles p_size (p_size + 1)
               ++ row_triangles p_size x)))
            + 9 <= index_count p_size).
  { rewrite length_tri_indices, !length_app, !Nat2Z.inj_add,
      length_grid_triangles, length_column_triangles,
      length_row_triangles by lia.
    unfold index_count. nia. }
  run_puts.
  unfold row_triangles at 2.
  rewrite flat_map_snoc, !app_assoc, (flat_map_app _ _ (row_segment _ _))
    by lia.
  cbn [flat_map tri_indices row_segment app].
  replace (m0 p_size + (p_size + 1) + (x + 1))
    with (m0 p_size + (p_size + 1) + x + 1) by lia.
  now rewrite <- !app_assoc.
Qed.

(** Rewrites the sums, differences and products of the goal that fit. *)
Ltac int_eval_products :=
  rewrite ?int_ok by lia;
  repeat first [rewrite iadd_ok by nia | rewrite isub_ok by nia
               | rewrite imul_ok by nia | rewrite ineg_ok by lia].

Lemma fill_indices_run (p_size : Z) (offset : Vector3) :
  0 <= p_size <= 18916 ->
  fill_indices p_size (vstate p_size (vertex_list p_size offset))
  = Some (tt, istate p_size offset (vertex_count p_size) (index_list p_size)).
Proof.
  intros Hsz. unfold fill_indices. int_eval_products.
  erewrite bind_ret_run by reflexivity.
  replace (mkLocals _ _ _ _ _ _) with (istate p_size offset 0 []).
  2:{ unfold istate, vstate. cbn [vertices indices n m vwrites iwrites].
      now rewrite (filling_full (vertex_count p_size)), length_vertex_list
        by (first [lia | apply length_vertex_list; lia]). }
  erewrite bind_ret_run by (now apply grid_indices_run).
  erewrite bind_ret_run by reflexivity.
  change (mkLocals _ _ _ _ _ _)
    with (istate p_size offset (m0 p_size)
            (flat_map tri_indices (grid_triangles p_size (p_size + 1)))).
  erewrite bind_ret_run by (now apply column_strip_indices_run).
  now apply row_strip_indices_run.
Qed.

(** ** The whole block *)

Lemma vertex_count_pos (p_size : Z) : 0 <= p_size -> 0 < vertex_count p_size.
Proof. unfold vertex_count. nia. Qed.

Lemma index_count_pos (p_size : Z) : 0 <= p_size -> 0 < index_count p_size.
Proof. unfold index_count. nia. Qed.

Lemma declare_buffers_run (p_size : Z) :
  0 <= p_size <= 18916 ->
  declare_buffers p_size init_locals = Some (tt, vstate p_size []).
Proof.
  intros Hsz. unfold declare_buffers, resize_vertices, resize_indices.
  int_eval_products.
  unfold bind, eval, init_locals, vstate.
  cbn [vertices indices n m vwrites iwrites].
  replace ((p_size + 3) * (p_size + 3) + (p_size + 1) * 2 - 1)
    with (vertex_count p_size) by (unfold vertex_count; lia).
  replace ((p_size + 1) * (p_size + 1) * 6 + (p_size + 1) * 9 * 2)
    with (index_count p_size) by (unfold index_count; lia).
  pose proof (vertex_count_pos p_size ltac:(lia)).
  pose proof (index_count_pos p_size ltac:(lia)).
  now rewrite !pa_resize_nil by lia.
Qed.

Lemma compute_offset_run (p_size : Z) (l : Locals) :
  -2147483647 <= p_size <= 2147483647 ->
  compute_offset p_size l = Some (tile_offset p_size, l).
Proof.
  intros Hsz. unfold compute_offset.
  now rewrite int_ok, ineg_ok by lia.
Qed.

Lemma istate_final (p_size : Z) (offset : Vector3) :
  0 <= p_size ->
  istate p_size offset (vertex_count p_size) (index_list p_size)
  = final_locals p_size offset.
Proof.
  intros Hsz. unfold istate, final_locals.
  now rewrite filling_full, length_index_list
    by (first [lia | now apply length_index_list]).
Qed.

Lemma tile_buffers_run (p_size : Z) :
  0 <= p_size <= 18916 ->
  tile_buffers p_size init_locals
  = Some (tile_offset p_size, final_locals p_size (tile_offset p_size)).
Proof.
  intros Hsz. unfold tile_buffers.
  erewrite bind_ret_run by (now apply declare_buffers_run).
  erewrite bind_ret_run by (apply compute_offset_run; lia).
  erewrite bind_ret_run by (now apply fill_vertices_run).
  erewrite bind_ret_run by (now apply fill_indices_run).
  rewrite istate_final by lia. reflexivity.
Qed.

(** ** [_create_mesh] and [generate] as one step *)

Lemma pa_fill_resize_nil {A} (k : nat) (v : A) :
  pa_fill v (pa_resize (Z.of_nat k) []) = replicate k (Some v).
Proof.
  rewrite pa_resize_nil by lia. unfold pa_fill, filling.
  cbn [fmap list_fmap length app]. rewrite fmap_replicate.
  f_equal. lia.
Qed.

Lemma _create_mesh_run (p_vertices : Packed Vector3) (p_indices : Packed Z)
    (p_aabb : AABB) (w : World) :
  exists w',
    _create_mesh p_vertices p_indices p_aabb w = Some (next_rid (RS w), w')
    /\ tile_of w' (next_rid (RS w))
       = Some (created_tile p_vertices p_indices p_aabb)
    /\ logged w' = logged w ++ [LogCreatingMesh;
                                LogSettingAabb (position p_aabb) (size p_aabb)].
Proof.
  eexists. split; [reflexivity|]. split.
  - unfold tile_of.
    cbn [RS meshes mesh_set_custom_aabb mesh_add_surface_from_arrays
         mesh_create fst snd].
    rewrite !alter_insert_eq, lookup_insert_eq.
    cbn [surfaces custom_aabb app].
    unfold created_tile, up_normals, zero_tangents.
    unfold pa_size. rewrite <- Nat2Z.inj_mul with (m := 4%nat).
    rewrite !pa_fill_resize_nil. reflexivity.
  - cbn [logged]. now rewrite <- app_assoc.
Qed.

Lemma generate_run (p_size p_levels : Z) (w : World) :
  0 <= p_size <= 18916 ->
  exists w',
    generate p_size p_levels w = Some ([next_rid (RS w)], w')
    /\ tile_of w' (next_rid (RS w)) = Some (generated_tile p_size).
Proof.
  intros Hsz. unfold generate.
  erewrite bind_ret_run by reflexivity.
  erewrite bind_ret_run.
  2:{ unfold block. now rewrite tile_buffers_run. }
  int_eval. rewrite !bind_eval_Some.
  cbn [fst snd vertices indices final_locals].
  destruct (_create_mesh_run
              (Some <$> vertex_list p_size (tile_offset p_size))
              (Some <$> index_list p_size)
              (mkAABB (tile_offset p_size)
                      (Vector3i (p_size + 2) 1 (p_size + 2)))
              (mkWorld (RS w) (logged w ++ [LogGenerating p_size p_levels])))
    as (w' & Hrun & Htile & _).
  exists w'. erewrite bind_ret_run by exact Hrun. now split.
Qed.

Lemma generate_tile_run (p_size p_levels : Z) (w : World) :
  0 <= p_size <= 18916 ->
  generate_tile p_size p_levels w = Some (generated_tile p_size).
Proof.
  intros Hsz. unfold generate_tile.
  destruct (generate_run p_size p_levels w Hsz) as (w' & -> & Htile).
  exact Htile.
Qed.

(** ** Sizes that do not fit an [int] *)

(** Reads the operands and the range back from an [int] expression that
    has a value. *)
Ltac int_inv :=
  repeat match goal with
  | H : _ +! _ = Some _ |- _ =>
      apply iadd_Some in H as (? & ? & ? & ? & -> & ?)
  | H : _ -! _ = Some _ |- _ =>
      apply isub_Some in H as (? & ? & ? & ? & -> & ?)
  | H : _ *! _ = Some _ |- _ =>
      apply imul_Some in H as (? & ? & ? & ? & -> & ?)
  | H : int _ = Some _ |- _ => apply int_Some in H as [-> ?]
  end.

(** Line 73: the index length has a value only from -18919 to 18916. *)
Lemma index_length_Some (p_size v : Z) :
  (int p_size +! int 1) *! (int p_size +! int 1) *! int 6
  +! (int p_size +! int 1) *! int 9 *! int 2 = Some v ->
  -18919 <= p_size <= 18916.
Proof. intros H. int_inv. nia. Qed.

Lemma declare_buffers_Some (p_size : Z) (l : Locals) (r : unit * Locals) :
  declare_buffers p_size l = Some r -> -18919 <= p_size <= 18916.
Proof.
  unfold declare_buffers, resize_vertices, resize_indices, bind, eval.
  destruct ((int p_size +! int 3) *! (int p_size +! int 3)
            +! (int p_size +! int 1) *! int 2 -! int 1); [|discriminate].
  destruct ((int p_size +! int 1) *! (int p_size +! int 1) *! int 6
            +! (int p_size +! int 1) *! int 9 *! int 2) as [v|] eqn:Hlen;
    [|discriminate].
  intros _. exact (index_length_Some p_size v Hlen).
Qed.

Lemma tile_buffers_Some (p_size : Z) (l : Locals) (r : Vector3 * Locals) :
  tile_buffers p_size l = Some r -> -18919 <= p_size <= 18916.
Proof.
  unfold tile_buffers. unfold bind at 1.
  destruct (declare_buffers p_size l) as [r0|] eqn:Hdecl; [|discriminate].
  intros _. exact (declare_buffers_Some p_size l r0 Hdecl).
Qed.

(** [generate] has a result only for sizes from -18919 to 18916: outside
    this range the index length of line 73 overflows. *)
Lemma generate_defined_range (p_size p_levels : Z) (w : World)
    (r : list RID * World) :
  generate p_size p_levels w = Some r -> -18919 <= p_size <= 18916.
Proof.
  unfold generate, LOG, block. unfold bind at 1 2.
  destruct (tile_buffers p_size init_locals) as [r0|] eqn:Hblock;
    [|discriminate].
  intros _. exact (tile_buffers_Some p_size init_locals r0 Hblock).
Qed.

Lemma declare_buffers_overflow (p_size : Z) (l : Locals) :
  18916 < p_size -> declare_buffers p_size l = None.
Proof.
  intros Hsz. destruct (declare_buffers p_size l) as [r|] eqn:Hrun;
    [|reflexivity].
  apply declare_buffers_Some in Hrun. lia.
Qed.

Lemma tile_buffers_overflow (p_size : Z) (l : Locals) :
  18916 < p_size -> tile_buffers p_size l = None.
Proof.
  intros Hsz. destruct (tile_buffers p_size l) as [r|] eqn:Hrun;
    [|reflexivity].
  apply tile_buffers_Some in Hrun. lia.
Qed.

Lemma generate_overflow (p_size p_levels : Z) (w : World) :
  18916 < p_size -> generate p_size p_levels w = None.
Proof.
  intros Hsz. destruct (generate p_size p_levels w) as [r|] eqn:Hrun;
    [|reflexivity].
  apply generate_defined_range in Hrun. lia.
Qed.

Lemma generate_tile_overflow (p_size p_levels : Z) (w : World) :
  18916 < p_size -> generate_tile p_size p_levels w = None.
Proof.
  intros Hsz. unfold generate_tile. now rewrite generate_overflow.
Qed.

(** ** Reading the buffers *)

Lemma pa_values_Some {A} (l : list A) : pa_values (Some <$> l) = Some l.
Proof.
  induction l as [|a l IH]; [reflexivity|].
  cbn [fmap list_fmap pa_values]. fold (fmap (M:=list) (@Some A) l).
  now rewrite IH.
Qed.

Lemma triangles_tri_indices (ts : list Triangle) :
  triangles (flat_map tri_indices ts) = ts.
Proof.
  induction ts as [|[[a b] c] ts IH]; [reflexivity|].
  cbn [flat_map tri_indices app triangles]. now rewrite IH.
Qed.

Lemma pa_get_Some {A} (l : list A) (i : Z) (a : A) :
  0 <= i -> l !! Z.to_nat i = Some a -> pa_get (Some <$> l) i = Some (Some a).
Proof.
  intros Hi Hl. unfold pa_get.
  destruct (Z.leb_spec 0 i) as [_|?]; [|lia].
  now rewrite list_lookup_fmap, Hl.
Qed.

Lemma lookup_fmap_seqZ {A} (f : Z -> A) (k i : Z) :
  0 <= i < k -> (f <$> seqZ 0 k) !! Z.to_nat i = Some (f i).
Proof.
  intros Hi. rewrite list_lookup_fmap, lookup_seqZ_lt by lia.
  cbn [fmap option_fmap option_map]. now rewrite Z2Nat.id by lia.
Qed.

Lemma lookup_grid_vertex (p_size : Z) (offset : Vector3) (x y : Z) :
  0 <= p_size -> 0 <= x <= p_size + 2 -> 0 <= y <= p_size + 2 ->
  ~ (x = p_size + 2 /\ y = p_size + 2) ->
  vertex_list p_size offset !! Z.to_nat (patch x y (p_size + 3))
  = Some (grid_vertex offset x y).
Proof.
  intros Hsz Hx Hy Hcorner. unfold vertex_list, grid_rows, patch.
  replace (Z.to_nat (y * (p_size + 3) + x))
    with (Z.to_nat y * Z.to_nat (p_size + 3) + Z.to_nat x)%nat by nia.
  assert (Hlt : x < row_len p_size y)
    by (unfold row_len; destruct (Z.eqb_spec y (p_size + 2)); lia).
  rewrite lookup_app_l.
  2:{ apply Nat2Z.inj_lt. fold (grid_rows p_size offset (p_size + 3)).
      rewrite length_grid by lia. unfold m0. nia. }
  replace (p_size + 3) with (p_size + 2 + 1) at 2 by lia.
  rewrite flat_map_snoc by lia.
  destruct (decide (y = p_size + 2)) as [->|Hne].
  - rewrite lookup_app_r.
    2:{ apply Nat2Z.inj_le. fold (grid_rows p_size offset (p_size + 2)).
        rewrite length_grid_rows by lia. nia. }
    replace (Z.to_nat (p_size + 2) * Z.to_nat (p_size + 3) + Z.to_nat x
             - length (flat_map (fun y => grid_row offset y (row_len p_size y))
                                (seqZ 0 (p_size + 2))))%nat
      with (Z.to_nat x).
    2:{ apply Nat2Z.inj. fold (grid_rows p_size offset (p_size + 2)).
        rewrite Nat2Z.inj_sub.
        - rewrite length_grid_rows by lia. nia.
        - apply Nat2Z.inj_le. rewrite length_grid_rows by lia. nia. }
    unfold grid_row. apply (lookup_fmap_seqZ (fun x => grid_vertex offset x _)).
    lia.
  - rewrite lookup_app_l.
    2:{ apply Nat2Z.inj_lt. fold (grid_rows p_size offset (p_size + 2)).
        rewrite length_grid_rows by lia. nia. }
    rewrite (lookup_flat_map_seqZ _ (Z.to_nat (p_size + 3)) _ y).
    + unfold grid_row.
      apply (lookup_fmap_seqZ (fun x => grid_vertex offset x _)). lia.
    + intros i Hi. apply Nat2Z.inj. unfold row_len.
      destruct (Z.eqb_spec i (p_size + 2)); [lia|].
      rewrite length_grid_row; lia.
    + lia.
    + lia.
Qed.

Lemma lookup_column_strip_vertex (p_size : Z) (offset : Vector3) (y : Z) :
  0 <= p_size -> 0 <= y <= p_size ->
  vertex_list p_size offset !! Z.to_nat (m0 p_size + y)
  = Some (column_strip_vertex p_size offset y).
Proof.
  intros Hsz Hy. unfold vertex_list.
  pose proof (length_grid p_size offset Hsz) as Hlen.
  assert (0 <= m0 p_size) by (unfold m0; nia).
  rewrite lookup_app_r by lia.
  replace (Z.to_nat (m0 p_size + y)
           - length (grid_rows p_size offset (p_size + 3)))%nat
    with (Z.to_nat y) by lia.
  rewrite lookup_app_l
    by (unfold column_strip; rewrite length_fmap, length_seqZ; lia).
  apply lookup_fmap_seqZ. lia.
Qed.

Lemma lookup_row_strip_vertex (p_size : Z) (offset : Vector3) (x : Z) :
  0 <= p_size -> 0 <= x <= p_size ->
  vertex_list p_size offset !! Z.to_nat (m0 p_size + (p_size + 1) + x)
  = Some (row_strip_vertex p_size offset x).
Proof.
  intros Hsz Hx. unfold vertex_list.
  pose proof (length_grid p_size offset Hsz) as Hlen.
  assert (0 <= m0 p_size) by (unfold m0; nia).
  rewrite lookup_app_r by lia.
  rewrite lookup_app_r
    by (unfold column_strip; rewrite length_fmap, length_seqZ; lia).
  replace (Z.to_nat (m0 p_size + (p_size + 1) + x)
           - length (grid_rows p_size offset (p_size + 3))
           - length (column_strip p_size offset (p_size + 1)))%nat
    with (Z.to_nat x)
    by (unfold column_strip; rewrite length_fmap, length_seqZ; lia).
  apply lookup_fmap_seqZ. lia.
Qed.

Lemma tile_triangles_generated (p_size : Z) :
  tile_triangles (generated_tile p_size) = triangle_list p_size.
Proof.
  unfold tile_triangles, generated_tile, created_tile, index_list.
  cbn [tile_indices]. now rewrite pa_values_Some, triangles_tri_indices.
Qed.

Lemma grid_part_generated (p_size : Z) :
  0 <= p_size ->
  grid_part p_size (triangle_list p_size)
  = grid_triangles p_size (p_size + 1).
Proof.
  intros Hsz. unfold grid_part, triangle_list.
  apply take_app_length'. apply Nat2Z.inj.
  rewrite length_grid_triangles by lia. nia.
Qed.

Lemma column_part_generated (p_size : Z) :
  0 <= p_size ->
  column_part p_size (triangle_list p_size)
  = column_triangles p_size (p_size + 1).
Proof.
  intros Hsz. unfold column_part, triangle_list.
  rewrite drop_app_length'.
  - apply take_app_length'. apply Nat2Z.inj.
    rewrite length_column_triangles by lia. lia.
  - apply Nat2Z.inj. rewrite length_grid_triangles by lia. nia.
Qed.

Lemma row_part_generated (p_size : Z) :
  0 <= p_size ->
  row_part p_size (triangle_list p_size) = row_triangles p_size (p_size + 1).
Proof.
  intros Hsz. unfold row_part, triangle_list.
  rewrite drop_app_length'.
  - apply drop_app_length'. apply Nat2Z.inj.
    rewrite length_column_triangles by lia. lia.
  - apply Nat2Z.inj. rewrite length_grid_triangles by lia. nia.
Qed.

(** ** Sizes *)

(** C1, on the sizes whose lengths fit an [int]: for every size
    [0 <= S <= 18916], [generate] builds [(S+3)^2 - 1 + 2(S+1)] vertices
    and [6(S+1)^2 + 18(S+1)] indices, the index count is a multiple of 3,
    and for [S = 0] the counts are 10 and 24. *)
Theorem generate_counts (p_size p_levels : Z) (w : World) :
  0 <= p_size <= 18916 ->
  exists t,
    generate_tile p_size p_levels w = Some t
    /\ pa_size (tile_vertices t) = (p_size + 3) ^ 2 - 1 + 2 * (p_size + 1)
    /\ pa_size (tile_indices t) = 6 * (p_size + 1) ^ 2 + 18 * (p_size + 1)
    /\ (3 | pa_size (tile_indices t))
    /\ (p_size = 0 ->
        pa_size (tile_vertices t) = 10 /\ pa_size (tile_indices t) = 24).
Proof.
  intros Hsz. exists (generated_tile p_size).
  split; [now apply generate_tile_run|].
  unfold generated_tile, created_tile, pa_size. cbn [tile_vertices tile_indices].
  rewrite !length_fmap, length_vertex_list, length_index_list by lia.
  unfold vertex_count, index_count.
  repeat split; try lia.
  exists (2 * ((p_size + 1) * (p_size + 1)) + 6 * (p_size + 1)). lia.
Qed.

Lemma generate_counts_witness :
  0 <= 0 <= 18916 /\
  exists t,
    generate_tile 0 1 empty_world = Some t
    /\ pa_size (tile_vertices t) = 10
    /\ pa_size (tile_indices t) = 24.
Proof.
  split; [lia|].
  destruct (generate_counts 0 1 empty_world ltac:(lia))
    as (t & Hrun & _ & _ & _ & Hzero).
  exists t. split; [exact Hrun|]. now apply Hzero.
Defined.

(** C1 as the claim states it fails for [S = 18917]: the index length
    [6(S+1)^2 + 18(S+1)] is 2147684868 there, above the largest [int],
    so the expression of line 73 overflows and [generate] builds no
    index sequence of that length. *)
Lemma generate_counts_counterexample :
  0 <= 18917
  /\ 6 * (18917 + 1) ^ 2 + 18 * (18917 + 1) = 2147684868
  /\ INT_MAX < index_count 18917
  /\ declare_buffers 18917 init_locals = None
  /\ generate_tile 18917 1 empty_world = None.
Proof.
  split; [lia|]. split; [reflexivity|]. split; [reflexivity|].
  split; [apply declare_buffers_overflow; lia|].
  apply generate_tile_overflow. lia.
Qed.

(** ** Index values *)





(** ** The bounding box *)

Lemma tile_offset_value (p_size : Z) :
  v3_eq (tile_offset p_size)
        (mkVector3 (- (inject_Z p_size / 2) - 1)%Q 0%Q
                   (- (inject_Z p_size / 2) - 1)%Q).
Proof.
  unfold v3_eq, tile_offset, offset_from. cbn [vx vy vz].
  rewrite inject_Z_opp. repeat split; try reflexivity; field.
Qed.

(** C7, on the sizes whose lengths fit an [int]: for every size
    [0 <= S <= 18916], the box handed to mesh assembly has the computed
    offset [(-S/2 - 1, 0, -S/2 - 1)] as its position and [(S+2, 1, S+2)]
    as its size. *)
Theorem generate_aabb (p_size p_levels : Z) (w : World) :
  0 <= p_size <= 18916 ->
  exists t,
    generate_tile p_size p_levels w = Some t
    /\ position (tile_aabb t) = tile_offset p_size
    /\ v3_eq (position (tile_aabb t))
             (mkVector3 (- (inject_Z p_size / 2) - 1)%Q 0%Q
                        (- (inject_Z p_size / 2) - 1)%Q)
    /\ size (tile_aabb t)
       = mkVector3 (inject_Z (p_size + 2)) 1%Q (inject_Z (p_size + 2)).
Proof.
  intros Hsz. exists (generated_tile p_size).
  split; [now apply generate_tile_run|].
  cbn [generated_tile created_tile tile_aabb position size].
  repeat split; try reflexivity; apply tile_offset_value.
Qed.

Lemma generate_aabb_witness :
  0 <= 2 <= 18916 /\
  exists t,
    generate_tile 2 1 empty_world = Some t
    /\ position (tile_aabb t) = tile_offset 2
    /\ v3_eq (position (tile_aabb t)) (mkVector3 (-2) 0 (-2))
    /\ size (tile_aabb t) = mkVector3 4 1 4.
Proof.
  split; [lia|].
  destruct (generate_aabb 2 1 empty_world ltac:(lia))
    as (t & Hrun & Hpos & Hval & Hsize).
  exists t. repeat split; try assumption.
  - now rewrite Hpos.
  - now rewrite Hpos.
  - now rewrite Hpos.
Defined.

(** C7 as the claim states it fails for [S = 18917]: the run overflows
    at line 73, before the offset and the box are computed, so no box
    reaches mesh assembly. *)
Lemma generate_aabb_counterexample :
  0 <= 18917
  /\ tile_buffers 18917 init_locals = None
  /\ ~ (exists t,
          generate_tile 18917 1 empty_world = Some t
          /\ position (tile_aabb t) = tile_offset 18917
          /\ size (tile_aabb t)
             = mkVector3 (inject_Z (18917 + 2)) 1%Q (inject_Z (18917 + 2))).
Proof.
  split; [lia|]. split; [apply tile_buffers_overflow; lia|].
  intros (t & Hrun & _).
  rewrite generate_tile_overflow in Hrun by lia. discriminate Hrun.
Qed.

(** ** Mesh assembly *)

(** C9: for every vertex sequence passed to mesh assembly, the normals
    array has one entry per vertex, each equal to [(0, 1, 0)], and the
    tangents array has four components per vertex, each equal to 0. *)
Theorem _create_mesh_attributes (p_vertices : Packed Vector3)
    (p_indices : Packed Z) (p_aabb : AABB) (w : World) :
  exists mesh w' t,
    _create_mesh p_vertices p_indices p_aabb w = Some (mesh, w')
    /\ tile_of w' mesh = Some t
    /\ tile_vertices t = p_vertices
    /\ length (tile_normals t) = length p_vertices
    /\ Forall (fun slot => slot = Some (mkVector3 0 1 0)) (tile_normals t)
    /\ length (tile_tangents t) = (4 * length p_vertices)%nat
    /\ Forall (fun slot => slot = Some 0%Q) (tile_tangents t).
Proof.
  destruct (_create_mesh_run p_vertices p_indices p_aabb w)
    as (w' & Hrun & Htile & _).
  exists (next_rid (RS w)), w', (created_tile p_vertices p_indices p_aabb).
  split; [exact Hrun|]. split; [exact Htile|].
  cbn [created_tile tile_vertices tile_normals tile_tangents].
  unfold up_normals, zero_tangents. rewrite !length_replicate.
  repeat split; try lia; now apply Forall_replicate.
Qed.

(** ** The level count *)

(** C8, on the sizes whose lengths fit an [int]: for every size
    [0 <= S <= 18916] and any two level counts (at least 1 or not),
    [generate(S, l1)] and [generate(S, l2)] each return exactly one mesh
    handle, and the two meshes hold the same vertices, indices, normals,
    tangents and box; the rendering servers the two calls start from need
    not be the same. *)
Theorem generate_ignores_levels (p_size l1 l2 : Z) (w1 w2 : World) :
  0 <= p_size <= 18916 ->
  exists mesh1 w1' mesh2 w2' t,
    generate p_size l1 w1 = Some ([mesh1], w1')
    /\ generate p_size l2 w2 = Some ([mesh2], w2')
    /\ tile_of w1' mesh1 = Some t
    /\ tile_of w2' mesh2 = Some t.
Proof.
  intros Hsz.
  destruct (generate_run p_size l1 w1 Hsz) as (w1' & Hrun1 & Htile1).
  destruct (generate_run p_size l2 w2 Hsz) as (w2' & Hrun2 & Htile2).
  exists (next_rid (RS w1)), w1', (next_rid (RS w2)), w2',
    (generated_tile p_size).
  now repeat split.
Qed.

Lemma generate_ignores_levels_witness :
  0 <= 2 <= 18916 /\
  exists mesh1 w1' mesh2 w2' t,
    generate 2 1 empty_world = Some ([mesh1], w1')
    /\ generate 2 5 empty_world = Some ([mesh2], w2')
    /\ tile_of w1' mesh1 = Some t
    /\ tile_of w2' mesh2 = Some t.
Proof.
  split; [lia|].
  exact (generate_ignores_levels 2 1 5 empty_world empty_world ltac:(lia)).
Defined.

(** C8 as the claim states it fails for [S = 18917] and the level
    counts 1 and 2: neither call returns a handle. *)
Lemma generate_ignores_levels_counterexample :
  0 <= 18917 /\ 1 <= 1 /\ 1 <= 2
  /\ generate 18917 1 empty_world = None
  /\ generate 18917 2 empty_world = None
  /\ ~ (exists mesh w', generate 18917 1 empty_world = Some ([mesh], w')).
Proof.
  split; [lia|]. split; [lia|]. split; [lia|].
  split; [apply generate_overflow; lia|].
  split; [apply generate_overflow; lia|].
  intros (mesh & w' & Hrun).
  rewrite generate_overflow in Hrun by lia. discriminate Hrun.
Qed.

(** ** The write counter *)

(** C10, on the sizes whose lengths fit an [int]: for every size
    [0 <= S <= 18916], the counter [n] fills both arrays exactly.  The
    vertex loops make [(S+3)^2 - 1 + 2(S+1)] writes, to the slots 0, 1,
    2, ... in this order, and leave [n] at the length of the vertex
    array; the index loops make [6(S+1)^2 + 18(S+1)] writes in the same
    way.  No write fails for being outside its array, and no slot of
    either array is left unwritten.  The steps are those of the tile
    block [tile_buffers] that [generate] runs: the arrays are sized, the
    offset is computed, which changes no local, and the two groups of
    loops run. *)
Theorem generate_fills_buffers (p_size : Z) :
  0 <= p_size <= 18916 ->
  exists l0 l1 l2,
    declare_buffers p_size init_locals = Some (tt, l0)
    /\ compute_offset p_size l0 = Some (tile_offset p_size, l0)
    /\ fill_vertices p_size (tile_offset p_size) l0 = Some (tt, l1)
    /\ fill_indices p_size l1 = Some (tt, l2)
    /\ tile_buffers p_size init_locals = Some (tile_offset p_size, l2)
    /\ vwrites l1 = seqZ 0 ((p_size + 3) ^ 2 - 1 + 2 * (p_size + 1))
    /\ n l1 = (p_size + 3) ^ 2 - 1 + 2 * (p_size + 1)
    /\ pa_size (vertices l1) = (p_size + 3) ^ 2 - 1 + 2 * (p_size + 1)
    /\ Forall is_Some (vertices l1)
    /\ vwrites l2 = vwrites l1
    /\ vertices l2 = vertices l1
    /\ iwrites l2 = seqZ 0 (6 * (p_size + 1) ^ 2 + 18 * (p_size + 1))
    /\ n l2 = 6 * (p_size + 1) ^ 2 + 18 * (p_size + 1)
    /\ pa_size (indices l2) = 6 * (p_size + 1) ^ 2 + 18 * (p_size + 1)
    /\ Forall is_Some (indices l2).
Proof.
  intros Hsz.
  exists (vstate p_size []),
    (vstate p_size (vertex_list p_size (tile_offset p_size))),
    (final_locals p_size (tile_offset p_size)).
  split; [now apply declare_buffers_run|].
  split; [apply compute_offset_run; lia|].
  split; [now apply fill_vertices_run|].
  split; [rewrite fill_indices_run by lia; now rewrite istate_final|].
  split; [now apply tile_buffers_run|].
  replace ((p_size + 3) ^ 2 - 1 + 2 * (p_size + 1))
    with (vertex_count p_size) by (unfold vertex_count; lia).
  replace (6 * (p_size + 1) ^ 2 + 18 * (p_size + 1))
    with (index_count p_size) by (unfold index_count; lia).
  unfold vstate, final_locals. cbn [vertices indices n vwrites iwrites].
  rewrite (filling_full (vertex_count p_size))
    by (now apply length_vertex_list).
  unfold pa_size.
  rewrite !length_fmap, length_vertex_list, length_index_list by lia.
  repeat split; try reflexivity.
  - rewrite Forall_fmap. apply Forall_true. intros v. now exists v.
  - rewrite Forall_fmap. apply Forall_true. intros i. now exists i.
Qed.

Lemma generate_fills_buffers_witness :
  0 <= 0 <= 18916 /\
  exists l0 l1 l2,
    declare_buffers 0 init_locals = Some (tt, l0)
    /\ fill_vertices 0 (tile_offset 0) l0 = Some (tt, l1)
    /\ fill_indices 0 l1 = Some (tt, l2)
    /\ vwrites l1 = [0; 1; 2; 3; 4; 5; 6; 7; 8; 9]
    /\ n l1 = 10
    /\ pa_size (vertices l1) = 10
    /\ n l2 = 24
    /\ pa_size (indices l2) = 24.
Proof.
  split; [lia|].
  destruct (generate_fills_buffers 0 ltac:(lia))
    as (l0 & l1 & l2 & H0 & _ & H1 & H2 & _ & Hvw & Hn1 & Hv & _ & _ & _
        & _ & Hn2 & Hi & _).
  exists l0, l1, l2. now repeat split.
Defined.

(** C10 as the claim states it fails for [S = 18917]: the index length
    of line 73 overflows, the index array is never sized, and the block
    ends there with no write made. *)
Lemma generate_fills_buffers_counterexample :
  0 <= 18917
  /\ declare_buffers 18917 init_locals = None
  /\ ~ (exists l,
          tile_buffers 18917 init_locals = Some (tile_offset 18917, l)
          /\ iwrites l = seqZ 0 (6 * (18917 + 1) ^ 2 + 18 * (18917 + 1))).
Proof.
  split; [lia|]. split; [apply declare_buffers_overflow; lia|].
  intros (l & Hrun & _).
  rewrite tile_buffers_overflow in Hrun by lia. discriminate Hrun.
Qed.

(** ** The grid triangles *)

Lemma lookup_grid_triangle (p_size x y : Z) (k : nat) :
  0 <= p_size -> 0 <= x <= p_size -> 0 <= y <= p_size -> (k < 2)%nat ->
  grid_triangles p_size (p_size + 1)
    !! (Z.to_nat (2 * (y * (p_size + 1) + x)) + k)%nat
  = cell_triangles p_size x y !! k.
Proof.
  intros Hsz Hx Hy Hk. unfold grid_triangles.
  replace (Z.to_nat (2 * (y * (p_size + 1) + x)) + k)%nat
    with (Z.to_nat y * Z.to_nat (2 * (p_size + 1)) + (Z.to_nat x * 2 + k))%nat
    by nia.
  rewrite (lookup_flat_map_seqZ _ (Z.to_nat (2 * (p_size + 1))) _ y).
  - unfold grid_row_triangles.
    now rewrite (lookup_flat_map_seqZ _ 2%nat _ x) by (reflexivity || lia).
  - intros i _. apply Nat2Z.inj.
    rewrite length_grid_row_triangles by lia. lia.
  - lia.
  - lia.
Qed.

(** C5, on the sizes whose lengths fit an [int]: for every size
    [0 <= S <= 18916] and every cell [(x, y)] with [0 <= x, y <= S], the
    grid triangulation holds the two triangles [(x,y)-(x+1,y+1)-(x,y+1)]
    and [(x,y)-(x+1,y)-(x+1,y+1)], each corner resolved by
    [patch(x, y, width) = y * width + x] with [width = S+3] (the index of
    column [x], row [y] is [y(S+3) + x]); the cells come in row-major
    order, the pair of cell [(x, y)] at the triangle positions
    [2(y(S+1) + x)] and [2(y(S+1) + x) + 1], and these [2(S+1)^2]
    triangles are what comes before the stitch strips. *)
Theorem generate_grid_triangles (p_size p_levels : Z) (w : World) :
  0 <= p_size <= 18916 ->
  exists t,
    generate_tile p_size p_levels w = Some t
    /\ (forall x y, 0 <= x <= p_size -> 0 <= y <= p_size ->
          tile_triangles t !! Z.to_nat (2 * (y * (p_size + 1) + x))
          = Some (y * (p_size + 3) + x,
                  (y + 1) * (p_size + 3) + (x + 1),
                  (y + 1) * (p_size + 3) + x)
          /\ tile_triangles t !! Z.to_nat (2 * (y * (p_size + 1) + x) + 1)
             = Some (y * (p_size + 3) + x,
                     y * (p_size + 3) + (x + 1),
                     (y + 1) * (p_size + 3) + (x + 1)))
    /\ Z.of_nat (length (grid_part p_size (tile_triangles t)))
       = 2 * (p_size + 1) ^ 2
    /\ Z.of_nat (length (tile_triangles t))
       = 2 * (p_size + 1) ^ 2 + 6 * (p_size + 1).
Proof.
  intros Hsz. exists (generated_tile p_size).
  split; [now apply generate_tile_run|].
  rewrite tile_triangles_generated, grid_part_generated by lia.
  rewrite length_grid_triangles, length_triangle_list by lia.
  repeat split; try lia.
  - unfold triangle_list. rewrite lookup_app_l.
    + rewrite <- (Nat.add_0_r (Z.to_nat _)).
      now rewrite lookup_grid_triangle by lia.
    + apply Nat2Z.inj_lt. rewrite length_grid_triangles by lia. nia.
  - unfold triangle_list. rewrite lookup_app_l.
    + replace (Z.to_nat (2 * (y * (p_size + 1) + x) + 1))
        with (Z.to_nat (2 * (y * (p_size + 1) + x)) + 1)%nat by nia.
      now rewrite lookup_grid_triangle by lia.
    + apply Nat2Z.inj_lt. rewrite length_grid_triangles by lia. nia.
Qed.

Lemma generate_grid_triangles_witness :
  0 <= 2 <= 18916 /\
  exists t,
    generate_tile 2 1 empty_world = Some t
    /\ tile_triangles t !! 8%nat = Some (6, 12, 11)
    /\ tile_triangles t !! 9%nat = Some (6, 7, 12).
Proof.
  split; [lia|].
  destruct (generate_grid_triangles 2 1 empty_world ltac:(lia))
    as (t & Hrun & Hcell & _).
  exists t. split; [exact Hrun|].
  exact (Hcell 1 1 ltac:(lia) ltac:(lia)).
Defined.

(** C5 as the claim states it fails for [S = 18917] and the cell
    [(0, 0)]: the run overflows at line 73 and emits no triangle. *)
Lemma generate_grid_triangles_counterexample :
  0 <= 18917 /\ 0 <= 0 <= 18917
  /\ generate 18917 1 empty_world = None
  /\ ~ (exists t,
          generate_tile 18917 1 empty_world = Some t
          /\ tile_triangles t !! 0%nat
             = Some (patch 0 0 (18917 + 3),
                     patch (0 + 1) (0 + 1) (18917 + 3),
                     patch 0 (0 + 1) (18917 + 3))).
Proof.
  split; [lia|]. split; [lia|]. split; [apply generate_overflow; lia|].
  intros (t & Hrun & _).
  rewrite generate_tile_overflow in Hrun by lia. discriminate Hrun.
Qed.

(** ** The stitch strips *)

Lemma lookup_column_triangle (p_size y : Z) (k : nat) :
  0 <= y <= p_size -> (k < 3)%nat ->
  exists tr,
    column_triangles p_size (p_size + 1) !! (Z.to_nat y * 3 + k)%nat = Some tr
    /\ apex tr = m0 p_size + y.
Proof.
  intros Hy Hk. unfold column_triangles.
  rewrite (lookup_flat_map_seqZ _ 3%nat _ y) by (reflexivity || lia).
  destruct k as [|[|[|k]]]; [| | |lia]; eexists; split; reflexivity.
Qed.

Lemma lookup_row_triangle (p_size x : Z) (k : nat) :
  0 <= x <= p_size -> (k < 3)%nat ->
  exists tr,
    row_triangles p_size (p_size + 1) !! (Z.to_nat x * 3 + k)%nat = Some tr
    /\ apex tr = m0 p_size + (p_size + 1) + x.
Proof.
  intros Hx Hk. unfold row_triangles.
  rewrite (lookup_flat_map_seqZ _ 3%nat _ x) by (reflexivity || lia).
  destruct k as [|[|[|k]]]; [| | |lia]; eexists; split; reflexivity.
Qed.

(** C3, as the code has it: for every size [0 <= S <= 18916], the three stitch
    triangles of one segment share their apex, and the apex moves on by
    one from each segment to the next.  Segment [y] of the column strip
    has the apex index [(S+3)^2 - 1 + y], which is the slot of the strip
    vertex [(S+2, 0, y + 0.5) + offset]; segment [x] of the row strip has
    the apex index [(S+3)^2 - 1 + (S+1) + x], the slot of the strip
    vertex [(x + 0.5, 0, S+2) + offset]. *)
Theorem generate_stitch_apex (p_size p_levels : Z) (w : World) :
  0 <= p_size <= 18916 ->
  exists t,
    generate_tile p_size p_levels w = Some t
    /\ length (column_part p_size (tile_triangles t))
       = (Z.to_nat (p_size + 1) * 3)%nat
    /\ length (row_part p_size (tile_triangles t))
       = (Z.to_nat (p_size + 1) * 3)%nat
    /\ (forall y k, 0 <= y <= p_size -> (k < 3)%nat ->
          exists tr,
            column_part p_size (tile_triangles t) !! (Z.to_nat y * 3 + k)%nat
            = Some tr
            /\ apex tr = (p_size + 3) ^ 2 - 1 + y
            /\ pa_get (tile_vertices t) (apex tr)
               = Some (Some (v3_add (mkVector3 (inject_Z (p_size + 2)) 0
                                               (inject_Z y + (1 # 2))%Q)
                                    (tile_offset p_size))))
    /\ (forall x k, 0 <= x <= p_size -> (k < 3)%nat ->
          exists tr,
            row_part p_size (tile_triangles t) !! (Z.to_nat x * 3 + k)%nat
            = Some tr
            /\ apex tr = (p_size + 3) ^ 2 - 1 + (p_size + 1) + x
            /\ pa_get (tile_vertices t) (apex tr)
               = Some (Some (v3_add (mkVector3 (inject_Z x + (1 # 2))%Q 0
                                               (inject_Z (p_size + 2)))
                                    (tile_offset p_size)))).
Proof.
  intros Hsz. exists (generated_tile p_size).
  split; [now apply generate_tile_run|].
  rewrite tile_triangles_generated, column_part_generated,
    row_part_generated by lia.
  assert (Hm0 : m0 p_size = (p_size + 3) ^ 2 - 1) by (unfold m0; lia).
  assert (0 <= m0 p_size) by (unfold m0; nia).
  split; [apply Nat2Z.inj; rewrite length_column_triangles by lia; lia|].
  split; [apply Nat2Z.inj; rewrite length_row_triangles by lia; lia|].
  split.
  - intros y k Hy Hk.
    destruct (lookup_column_triangle p_size y k Hy Hk) as (tr & Htr & Hapex).
    exists tr. split; [exact Htr|]. split; [lia|].
    rewrite Hapex. apply pa_get_Some; [lia|].
    now apply lookup_column_strip_vertex.
  - intros x k Hx Hk.
    destruct (lookup_row_triangle p_size x k Hx Hk) as (tr & Htr & Hapex).
    exists tr. split; [exact Htr|]. split; [lia|].
    rewrite Hapex. apply pa_get_Some; [lia|].
    now apply lookup_row_strip_vertex.
Qed.

Lemma generate_stitch_apex_witness :
  0 <= 1 <= 18916 /\
  exists t tr0 tr1,
    generate_tile 1 1 empty_world = Some t
    /\ column_part 1 (tile_triangles t) !! 0%nat = Some tr0
    /\ apex tr0 = 15
    /\ column_part 1 (tile_triangles t) !! 3%nat = Some tr1
    /\ apex tr1 = 16.
Proof.
  split; [lia|].
  destruct (generate_stitch_apex 1 1 empty_world ltac:(lia))
    as (t & Hrun & _ & _ & Hcol & _).
  destruct (Hcol 0 0%nat ltac:(lia) ltac:(lia)) as (tr0 & Htr0 & Hapex0 & _).
  destruct (Hcol 1 0%nat ltac:(lia) ltac:(lia)) as (tr1 & Htr1 & Hapex1 & _).
  exists t, tr0, tr1. now repeat split.
Defined.

(** C3 as the claim states it fails for [S = 1]: the six triangles of the
    column strip have no index in common, so no single fan centre serves
    the whole side. *)
Lemma shared_apex_counterexample :
  exists t,
    generate_tile 1 1 empty_world = Some t
    /\ ~ exists a, Forall (fun tr => a ∈ tri_indices tr)
                          (column_part 1 (tile_triangles t)).
Proof.
  exists (generated_tile 1).
  split; [apply generate_tile_run; lia|].
  assert (Hstrip : column_part 1 (tile_triangles (generated_tile 1))
                   = [(2, 3, 15); (6, 2, 15); (7, 6, 15);
                      (6, 7, 16); (10, 6, 16); (11, 10, 16)])
    by (vm_compute; reflexivity).
  intros [a Ha]. rewrite Hstrip, !Forall_cons in Ha.
  destruct Ha as (H1 & _ & _ & H4 & _). cbn [tri_indices] in H1, H4.
  rewrite !elem_of_cons, elem_of_nil in H1, H4. lia.
Qed.

(** ** The slot of the skipped corner *)

Lemma pa_get_filling_unwritten {A} (cap : Z) (w : list A) (i : Z) :
  Z.of_nat (length w) <= i < cap -> pa_get (filling cap w) i = Some None.
Proof.
  intros Hi. unfold pa_get, filling.
  destruct (Z.leb_spec 0 i) as [_|?]; [|lia].
  rewrite lookup_app_r by (rewrite length_fmap; lia).
  apply lookup_replicate_2. rewrite length_fmap. lia.
Qed.

(** C4, as the code has it: for every size [0 <= S <= 18916], the grid
    loops stop before the corner [(S+2, S+2)] and write only the slots
    [0 .. (S+3)^2 - 2]: when they end the counter is at [m = (S+3)^2 - 1]
    and slot [m] is still unwritten.  The column strip writes next, the
    slots from [m] on, so slot [m] holds its first vertex
    [(S+2, 0, 0.5) + offset].  The vertex written just before, in slot
    [m - 1], is the grid vertex [(S+1, 0, S+2) + offset], a different
    position. *)
Theorem generate_corner_slot (p_size p_levels : Z) (w : World) :
  0 <= p_size <= 18916 ->
  exists t before l0 lg lc,
    generate_tile p_size p_levels w = Some t
    /\ declare_buffers p_size init_locals = Some (tt, l0)
    /\ (set_n (int 0) ;; grid_vertices p_size (tile_offset p_size)) l0
       = Some (tt, lg)
    /\ vwrites lg = seqZ 0 ((p_size + 3) ^ 2 - 1)
    /\ n lg = (p_size + 3) ^ 2 - 1
    /\ pa_get (vertices lg) ((p_size + 3) ^ 2 - 1) = Some None
    /\ column_strip_vertices p_size (tile_offset p_size) lg = Some (tt, lc)
    /\ vwrites lc
       = vwrites lg ++ seqZ ((p_size + 3) ^ 2 - 1) (p_size + 1)
    /\ pa_get (vertices lc) ((p_size + 3) ^ 2 - 1)
       = Some (Some (v3_add (mkVector3 (inject_Z (p_size + 2)) 0 (1 # 2))
                            (tile_offset p_size)))
    /\ pa_get (tile_vertices t) ((p_size + 3) ^ 2 - 1)
       = Some (Some (v3_add (mkVector3 (inject_Z (p_size + 2)) 0 (1 # 2))
                            (tile_offset p_size)))
    /\ pa_get (tile_vertices t) ((p_size + 3) ^ 2 - 1 - 1) = Some (Some before)
    /\ before = v3_add (Vector3i (p_size + 1) 0 (p_size + 2))
                       (tile_offset p_size)
    /\ ~ v3_eq (v3_add (mkVector3 (inject_Z (p_size + 2)) 0 (1 # 2))
                       (tile_offset p_size))
               before.
Proof.
  intros Hsz.
  pose proof (size_bounds p_size Hsz) as (Hm0pos & Hvc & _ & _).
  pose proof (length_grid p_size (tile_offset p_size) ltac:(lia)) as Hlen.
  assert (Hm0 : (p_size + 3) ^ 2 - 1 = m0 p_size) by (unfold m0; lia).
  exists (generated_tile p_size),
    (grid_vertex (tile_offset p_size) (p_size + 1) (p_size + 2)),
    (vstate p_size []),
    (vstate p_size (grid_rows p_size (tile_offset p_size) (p_size + 3))),
    (vstate p_size (grid_rows p_size (tile_offset p_size) (p_size + 3)
                    ++ column_strip p_size (tile_offset p_size)
                         (p_size + 1))).
  split; [now apply generate_tile_run|].
  split; [now apply declare_buffers_run|].
  split.
  { erewrite bind_ret_run by reflexivity.
    change (mkLocals _ _ _ _ _ _) with (vstate p_size []).
    now apply grid_vertices_run. }
  rewrite Hm0.
  unfold vstate at 1 2 3. cbn [vwrites n vertices].
  split; [now rewrite Hlen|]. split; [exact Hlen|].
  split; [apply pa_get_filling_unwritten; lia|].
  split; [now apply column_strip_vertices_run|].
  unfold vstate. cbn [vwrites n vertices].
  split.
  { rewrite length_app, Nat2Z.inj_add, Hlen.
    unfold column_strip. rewrite length_fmap, length_seqZ.
    rewrite Z2Nat.id by lia.
    rewrite (seqZ_app 0 (m0 p_size) (p_size + 1)) by lia.
    now rewrite Z.add_0_l. }
  cbn [generated_tile created_tile tile_vertices].
  split; [|split; [|split; [|split]]].
  - unfold pa_get, filling.
    destruct (Z.leb_spec 0 (m0 p_size)) as [_|?]; [|lia].
    rewrite lookup_app_l
      by (rewrite length_fmap, length_app; unfold column_strip;
          rewrite length_fmap, length_seqZ; lia).
    rewrite list_lookup_fmap, lookup_app_r by lia.
    replace (Z.to_nat (m0 p_size)
             - length (grid_rows p_size (tile_offset p_size) (p_size + 3)))%nat
      with (Z.to_nat 0) by lia.
    unfold column_strip. now rewrite lookup_fmap_seqZ by lia.
  - replace (m0 p_size) with (m0 p_size + 0) by lia.
    apply pa_get_Some; [lia|].
    now rewrite lookup_column_strip_vertex by lia.
  - replace (m0 p_size - 1)
      with (patch (p_size + 1) (p_size + 2) (p_size + 3))
      by (unfold patch, m0; lia).
    apply pa_get_Some; [unfold patch; nia|].
    apply lookup_grid_vertex; lia.
  - reflexivity.
  - unfold v3_eq, grid_vertex, v3_add, Vector3i. cbn [vx vy vz].
    intros (Hx & _ & _).
    rewrite !inject_Z_plus in Hx.
    assert (Hone : (inject_Z 1 == 1)%Q) by reflexivity.
    assert (Htwo : (inject_Z 2 == 2)%Q) by reflexivity.
    rewrite Hone, Htwo in Hx. lra.
Qed.

Lemma generate_corner_slot_witness :
  0 <= 0 <= 18916 /\
  exists t before l0 lg lc,
    generate_tile 0 1 empty_world = Some t
    /\ declare_buffers 0 init_locals = Some (tt, l0)
    /\ (set_n (int 0) ;; grid_vertices 0 (tile_offset 0)) l0 = Some (tt, lg)
    /\ vwrites lg = [0; 1; 2; 3; 4; 5; 6; 7]
    /\ pa_get (vertices lg) 8 = Some None
    /\ column_strip_vertices 0 (tile_offset 0) lg = Some (tt, lc)
    /\ vwrites lc = vwrites lg ++ [8]
    /\ pa_get (tile_vertices t) 8
       = Some (Some (v3_add (mkVector3 2 0 (1 # 2)) (tile_offset 0)))
    /\ pa_get (tile_vertices t) 7 = Some (Some before)
    /\ before = v3_add (Vector3i 1 0 2) (tile_offset 0).
Proof.
  split; [lia|].
  destruct (generate_corner_slot 0 1 empty_world ltac:(lia))
    as (t & before & l0 & lg & lc & Hrun & Hdecl & Hgrid & Hvw & _ & Hfree
        & Hcol & Hvw' & _ & Hm & Hprev & Hbefore & _).
  exists t, before, l0, lg, lc.
  split; [exact Hrun|]. split; [exact Hdecl|]. split; [exact Hgrid|].
  split; [exact Hvw|]. split; [exact Hfree|]. split; [exact Hcol|].
  split; [exact Hvw'|]. split; [exact Hm|]. split; [exact Hprev|].
  exact Hbefore.
Defined.

(** C4 as the claim states it fails for [S = 0]: slot 8 does not hold the
    position of the vertex written before it, in slot 7. *)
Lemma corner_slot_counterexample :
  exists t v8 v7,
    generate_tile 0 1 empty_world = Some t
    /\ pa_get (tile_vertices t) ((0 + 3) ^ 2 - 1) = Some (Some v8)
    /\ pa_get (tile_vertices t) ((0 + 3) ^ 2 - 1 - 1) = Some (Some v7)
    /\ ~ v3_eq v8 v7.
Proof.
  eexists _, _, _.
  split; [vm_compute; reflexivity|].
  split; [vm_compute; reflexivity|].
  split; [vm_compute; reflexivity|].
  intros (Hx & _ & _). vm_compute in Hx. discriminate Hx.
Qed.

(** ** Cells and winding *)

Lemma patch_inj (x1 y1 x2 y2 width : Z) :
  0 <= x1 < width -> 0 <= x2 < width ->
  patch x1 y1 width = patch x2 y2 width -> x1 = x2 /\ y1 = y2.
Proof.
  unfold patch. intros H1 H2 Heq.
  assert (y1 = y2) by nia. subst. lia.
Qed.

Lemma filter_flat_map_nil {A B} (P : B -> bool) (f : A -> list B)
    (l : list A) :
  (forall a, In a l -> List.filter P (f a) = []) ->
  List.filter P (flat_map f l) = [].
Proof.
  induction l as [|a l IH]; intros Hf; [reflexivity|].
  cbn [flat_map]. rewrite List.filter_app, Hf by now left.
  apply IH. intros b Hb. apply Hf. now right.
Qed.

(** When one block only keeps elements, filtering the blocks is
    filtering that block. *)
Lemma filter_flat_map_seqZ_single {B} (P : B -> bool) (f : Z -> list B)
    (k i : Z) :
  0 <= i < k ->
  (forall j, 0 <= j < k -> j <> i -> List.filter P (f j) = []) ->
  List.filter P (flat_map f (seqZ 0 k)) = List.filter P (f i).
Proof.
  intros Hi Hf.
  replace k with (i + (k - i)) by lia.
  rewrite seqZ_app, (seqZ_cons (0 + i)) by lia.
  rewrite flat_map_app. cbn [flat_map].
  rewrite !List.filter_app, !filter_flat_map_nil.
  - now rewrite app_nil_r.
  - intros j Hj. apply list_elem_of_In, elem_of_seqZ in Hj.
    apply Hf; lia.
  - intros j Hj. apply list_elem_of_In, elem_of_seqZ in Hj.
    apply Hf; lia.
Qed.

Lemma in_cell_own (p_size x y : Z) :
  List.filter (in_cell p_size x y) (cell_triangles p_size x y)
  = cell_triangles p_size x y.
Proof.
  unfold cell_triangles, in_cell, is_corner.
  cbn [List.filter forallb tri_indices].
  now rewrite !Z.eqb_refl, ?orb_true_r.
Qed.

Lemma in_cell_other (p_size x y x' y' : Z) :
  0 <= p_size -> 0 <= x <= p_size -> 0 <= x' <= p_size ->
  ~ (x' = x /\ y' = y) ->
  List.filter (in_cell p_size x y) (cell_triangles p_size x' y') = [].
Proof.
  intros Hsz Hx Hx' Hne.
  assert (Hout : forall tr, In tr (cell_triangles p_size x' y') ->
                            in_cell p_size x y tr = false).
  { intros tr Htr. destruct (in_cell p_size x y tr) eqn:Hin; [|reflexivity].
    exfalso. apply Hne.
    assert (Hdiag : is_corner p_size x y (patch x' y' (p_size + 3)) = true
              /\ is_corner p_size x y
                   (patch (x' + 1) (y' + 1) (p_size + 3)) = true).
    { unfold in_cell in Hin.
      destruct Htr as [<-|[<-|[]]]; cbn [forallb tri_indices] in Hin;
        rewrite !andb_true_iff in Hin; tauto. }
    destruct Hdiag as [Hlow Hhigh]. unfold is_corner in Hlow, Hhigh.
    rewrite !orb_true_iff, !Z.eqb_eq in Hlow, Hhigh.
    destruct Hlow as [[[Hlow|Hlow]|Hlow]|Hlow];
      apply patch_inj in Hlow; try lia;
      destruct Hhigh as [[[Hhigh|Hhigh]|Hhigh]|Hhigh];
      apply patch_inj in Hhigh; lia. }
  unfold cell_triangles in *. cbn [List.filter].
  rewrite !Hout; [reflexivity| |]; cbn [In]; tauto.
Qed.

Lemma filter_in_cell_grid (p_size x y : Z) :
  0 <= p_size -> 0 <= x <= p_size -> 0 <= y <= p_size ->
  List.filter (in_cell p_size x y) (grid_triangles p_size (p_size + 1))
  = cell_triangles p_size x y.
Proof.
  intros Hsz Hx Hy. unfold grid_triangles.
  rewrite (filter_flat_map_seqZ_single _ _ _ y) by
    (first [lia | intros y' Hy' Hne; apply filter_flat_map_nil;
                  intros x' Hin; apply list_elem_of_In, elem_of_seqZ in Hin;
                  apply in_cell_other; lia]).
  unfold grid_row_triangles.
  rewrite (filter_flat_map_seqZ_single _ _ _ x) by
    (first [lia | intros x' Hx' Hne; apply in_cell_other; lia]).
  apply in_cell_own.
Qed.

Lemma cell_triangle_normal (p_size x y : Z) (offset : Vector3) :
  0 <= p_size -> 0 <= x <= p_size -> 0 <= y <= p_size ->
  Forall (fun tr => exists nrm,
            tri_normal (Some <$> vertex_list p_size offset) tr = Some nrm
            /\ v3_eq nrm (mkVector3 0 (-1) 0))
         (cell_triangles p_size x y).
Proof.
  intros Hsz Hx Hy.
  assert (Hget : forall a b, 0 <= a <= p_size + 1 -> 0 <= b <= p_size + 1 ->
            pa_get (Some <$> vertex_list p_size offset)
                   (patch a b (p_size + 3))
            = Some (Some (grid_vertex offset a b))).
  { intros a b Ha Hb. apply pa_get_Some; [unfold patch; nia|].
    apply lookup_grid_vertex; lia. }
  assert (Hone : inject_Z 1 = 1%Q) by reflexivity.
  unfold cell_triangles.
  repeat constructor; eexists; (split;
    [unfold tri_normal; rewrite !Hget by lia; reflexivity|]);
    unfold v3_eq, v3_cross, v3_sub, grid_vertex, v3_add, Vector3i;
    cbn [vx vy vz]; rewrite !inject_Z_plus, !Hone;
    repeat split; ring.
Qed.

(** C6, as the code has it: for every size [0 <= S <= 18916], exactly two of the
    [2(S+1)^2] grid triangles lie in each of the [(S+1) x (S+1)] cells,
    and all grid triangles wind the same way: the cross product of the
    edge vectors (second vertex minus first, crossed with third vertex
    minus first) is [(0, -1, 0)], towards -Y, for every one of them. *)
Theorem generate_grid_winding (p_size p_levels : Z) (w : World) :
  0 <= p_size <= 18916 ->
  exists t,
    generate_tile p_size p_levels w = Some t
    /\ Z.of_nat (length (grid_part p_size (tile_triangles t)))
       = 2 * (p_size + 1) ^ 2
    /\ (forall x y, 0 <= x <= p_size -> 0 <= y <= p_size ->
          length (List.filter (in_cell p_size x y)
                              (grid_part p_size (tile_triangles t))) = 2%nat)
    /\ Forall (fun tr => exists nrm,
                 tri_normal (tile_vertices t) tr = Some nrm
                 /\ v3_eq nrm (mkVector3 0 (-1) 0))
              (grid_part p_size (tile_triangles t)).
Proof.
  intros Hsz. exists (generated_tile p_size).
  split; [now apply generate_tile_run|].
  rewrite tile_triangles_generated, grid_part_generated by lia.
  split; [rewrite length_grid_triangles by lia; lia|].
  split.
  - intros x y Hx Hy. now rewrite filter_in_cell_grid by lia.
  - cbn [generated_tile created_tile tile_vertices].
    unfold grid_triangles, grid_row_triangles.
    rewrite Forall_flat_map, Forall_seqZ. intros y Hy.
    rewrite Forall_flat_map, Forall_seqZ. intros x Hx.
    apply cell_triangle_normal; lia.
Qed.

Lemma generate_grid_winding_witness :
  0 <= 0 <= 18916 /\
  exists t,
    generate_tile 0 1 empty_world = Some t
    /\ length (List.filter (in_cell 0 0 0)
                           (grid_part 0 (tile_triangles t))) = 2%nat
    /\ Forall (fun tr => exists nrm,
                 tri_normal (tile_vertices t) tr = Some nrm
                 /\ v3_eq nrm (mkVector3 0 (-1) 0))
              (grid_part 0 (tile_triangles t)).
Proof.
  split; [lia|].
  destruct (generate_grid_winding 0 1 empty_world ltac:(lia))
    as (t & Hrun & _ & Hcount & Hwind).
  exists t. split; [exact Hrun|]. split; [|exact Hwind].
  apply Hcount; lia.
Defined.

(** C6 as the claim states it fails for [S = 0]: the first grid triangle
    has a cross product whose Y component is negative, so it does not
    point towards +Y. *)
Lemma grid_winding_counterexample :
  exists t tr nrm,
    generate_tile 0 1 empty_world = Some t
    /\ grid_part 0 (tile_triangles t) !! 0%nat = Some tr
    /\ tri_normal (tile_vertices t) tr = Some nrm
    /\ (vy nrm < 0)%Q
    /\ ~ (0 < vy nrm)%Q.
Proof.
  eexists _, _, _.
  split; [vm_compute; reflexivity|].
  split; [vm_compute; reflexivity|].
  split; [vm_compute; reflexivity|].
  split; [reflexivity|]. intros Hpos. vm_compute in Hpos. discriminate Hpos.
Qed.

(** ** Where the vertices are *)

Lemma inject_Z_two : inject_Z 2 = 2%Q.
Proof. reflexivity. Qed.

Lemma inject_Z_one : inject_Z 1 = 1%Q.
Proof. reflexivity. Qed.

Lemma inject_Z_zero : inject_Z 0 = 0%Q.
Proof. reflexivity. Qed.

(** X1: for every size [0 <= S <= 18916] the grid vertices are laid out row-major
    and centred: for every grid point [(x, y)] of the [(S+3) x (S+3)]
    grid other than the corner [(S+2, S+2)], slot [y(S+3) + x] holds the
    position [(x - S/2 - 1, 0, y - S/2 - 1)]. *)
Theorem generate_grid_layout (p_size p_levels : Z) (w : World) :
  0 <= p_size <= 18916 ->
  exists t,
    generate_tile p_size p_levels w = Some t
    /\ forall x y,
         0 <= x <= p_size + 2 -> 0 <= y <= p_size + 2 ->
         ~ (x = p_size + 2 /\ y = p_size + 2) ->
         exists v,
           pa_get (tile_vertices t) (y * (p_size + 3) + x) = Some (Some v)
           /\ v3_eq v (mkVector3 (inject_Z x - inject_Z p_size / 2 - 1)%Q 0%Q
                                 (inject_Z y - inject_Z p_size / 2 - 1)%Q).
Proof.
  intros Hsz. exists (generated_tile p_size).
  split; [now apply generate_tile_run|].
  intros x y Hx Hy Hcorner.
  exists (grid_vertex (tile_offset p_size) x y). split.
  - cbn [generated_tile created_tile tile_vertices].
    apply pa_get_Some; [nia|].
    now apply (lookup_grid_vertex p_size (tile_offset p_size) x y).
  - unfold v3_eq, grid_vertex, v3_add, Vector3i, tile_offset, offset_from.
    cbn [vx vy vz]. rewrite inject_Z_opp, inject_Z_zero.
    repeat split; field.
Qed.

Lemma generate_grid_layout_witness :
  0 <= 2 <= 18916 /\
  exists t v,
    generate_tile 2 1 empty_world = Some t
    /\ pa_get (tile_vertices t) 13 = Some (Some v)
    /\ v3_eq v (mkVector3 1 0 0).
Proof.
  split; [lia|].
  destruct (generate_grid_layout 2 1 empty_world ltac:(lia))
    as (t & Hrun & Hgrid).
  destruct (Hgrid 3 2 ltac:(lia) ltac:(lia) ltac:(lia)) as (v & Hv & Heq).
  exists t, v. split; [exact Hrun|]. split; [exact Hv|].
  destruct Heq as (Hx & Hy & Hz). cbn [vx vy vz] in *.
  repeat split; cbn [vx vy vz]; [rewrite Hx|rewrite Hy|rewrite Hz]; reflexivity.
Defined.

(** The offset and every coordinate of every vertex are halves of small
    integers, so the rationals of the embedding are the values the code
    computes in single precision. *)
Lemma vertex_list_exact (p_size : Z) :
  0 <= p_size <= 18916 ->
  exact_single (vx (tile_offset p_size))
  /\ exact_single (vz (tile_offset p_size))
  /\ Forall (fun v => exact_single (vx v) /\ (vy v == 0)%Q
                      /\ exact_single (vz v))
            (vertex_list p_size (tile_offset p_size)).
Proof.
  intros Hsz.
  assert (Hk : forall a b q, -40000 <= a <= 40000 ->
                 (2 * q == 2 * inject_Z b - inject_Z p_size + inject_Z a)%Q ->
                 0 <= b <= 20000 -> exact_single q).
  { intros a b q Ha Hq Hb. exists (2 * b - p_size + a). split; [lia|].
    rewrite Hq. unfold Z.sub.
    rewrite !inject_Z_plus, inject_Z_opp, inject_Z_mult, inject_Z_two.
    ring. }
  unfold tile_offset, offset_from. cbn [vx vy vz]. rewrite inject_Z_opp.
  assert (Hoff : exact_single (- inject_Z p_size * (1 # 2) - 1)).
  { apply (Hk (-2) 0); [lia| |lia].
    change (inject_Z (-2)) with (-2)%Q. change (inject_Z 0) with 0%Q. lra. }
  split; [exact Hoff|]. split; [exact Hoff|]. clear Hoff.
  unfold vertex_list, grid_rows, column_strip, row_strip, grid_row.
  rewrite !Forall_app, Forall_flat_map, !Forall_fmap, !Forall_seqZ.
  split; [|split].
  - intros y Hy. rewrite Forall_fmap, Forall_seqZ. intros x Hx.
    assert (Hx' : 0 <= x <= p_size + 2)
      by (unfold row_len in Hx; destruct (y =? p_size + 2); lia).
    unfold compose, grid_vertex, v3_add, Vector3i. cbn [vx vy vz].
    split; [|split].
    + apply (Hk (-2) x); [lia| |lia].
      change (inject_Z (-2)) with (-2)%Q. lra.
    + reflexivity.
    + apply (Hk (-2) y); [lia| |lia].
      change (inject_Z (-2)) with (-2)%Q. lra.
  - intros y Hy.
    unfold compose, column_strip_vertex, v3_add. cbn [vx vy vz].
    split; [|split].
    + apply (Hk (-2) (p_size + 2)); [lia| |lia].
      change (inject_Z (-2)) with (-2)%Q. lra.
    + reflexivity.
    + apply (Hk (-1) y); [lia| |lia].
      change (inject_Z (-1)) with (-1)%Q. lra.
  - intros x Hx.
    unfold compose, row_strip_vertex, v3_add. cbn [vx vy vz].
    split; [|split].
    + apply (Hk (-1) x); [lia| |lia].
      change (inject_Z (-1)) with (-1)%Q. lra.
    + reflexivity.
    + apply (Hk (-2) (p_size + 2)); [lia| |lia].
      change (inject_Z (-2)) with (-2)%Q. lra.
Qed.

Lemma vertex_list_flat_in_box (p_size : Z) :
  0 <= p_size ->
  Forall (fun v => (vy v == 0)%Q
                   /\ in_box (mkAABB (tile_offset p_size)
                                     (Vector3i (p_size + 2) 1 (p_size + 2))) v)
         (vertex_list p_size (tile_offset p_size)).
Proof.
  intros Hsz.
  assert (Hq : forall a, 0 <= a <= p_size + 2 ->
                 (0 <= inject_Z a <= inject_Z p_size + 2)%Q).
  { intros a Ha. rewrite <- inject_Z_two, <- inject_Z_plus, <- inject_Z_zero.
    rewrite <- !Zle_Qle. lia. }
  assert (Hh : forall a, 0 <= a <= p_size ->
                 (0 <= inject_Z a + (1 # 2) <= inject_Z p_size + 2)%Q).
  { intros a Ha. destruct (Hq a ltac:(lia)) as [Hlo _].
    assert (inject_Z a <= inject_Z p_size)%Q by (rewrite <- Zle_Qle; lia).
    split; lra. }
  unfold vertex_list, grid_rows, column_strip, row_strip, grid_row.
  rewrite !Forall_app, Forall_flat_map, !Forall_fmap, !Forall_seqZ.
  split; [|split].
  - intros y Hy. rewrite Forall_fmap, Forall_seqZ. intros x Hx.
    assert (Hx' : 0 <= x <= p_size + 2)
      by (unfold row_len in Hx; destruct (y =? p_size + 2); lia).
    destruct (Hq x Hx') as [? ?]. destruct (Hq y ltac:(lia)) as [? ?].
    unfold compose, in_box, grid_vertex, v3_add, Vector3i, tile_offset, offset_from.
    cbn [vx vy vz position size].
    rewrite inject_Z_plus, inject_Z_two, inject_Z_one, inject_Z_zero.
    repeat split; lra.
  - intros y Hy.
    destruct (Hh y ltac:(lia)) as [? ?].
    unfold compose, in_box, column_strip_vertex, v3_add, Vector3i, tile_offset, offset_from.
    cbn [vx vy vz position size].
    rewrite inject_Z_plus, inject_Z_two, inject_Z_one.
    repeat split; lra.
  - intros x Hx.
    destruct (Hh x ltac:(lia)) as [? ?].
    unfold compose, in_box, row_strip_vertex, v3_add, Vector3i, tile_offset, offset_from.
    cbn [vx vy vz position size].
    rewrite inject_Z_plus, inject_Z_two, inject_Z_one.
    repeat split; lra.
Qed.

(** X2: for every size [0 <= S <= 18916] the tile is flat and inside its box:
    every vertex slot is written, its position has [Y = 0], and the box
    set on the mesh holds it.  The box is centred on the origin in X and
    Z. *)
Theorem generate_vertices_in_box (p_size p_levels : Z) (w : World) :
  0 <= p_size <= 18916 ->
  exists t,
    generate_tile p_size p_levels w = Some t
    /\ Forall (fun slot => exists v, slot = Some v
                 /\ (vy v == 0)%Q /\ in_box (tile_aabb t) v)
              (tile_vertices t)
    /\ (vx (position (tile_aabb t)) + vx (size (tile_aabb t)) / 2 == 0)%Q
    /\ (vz (position (tile_aabb t)) + vz (size (tile_aabb t)) / 2 == 0)%Q.
Proof.
  intros Hsz. exists (generated_tile p_size).
  split; [now apply generate_tile_run|].
  cbn [generated_tile created_tile tile_vertices tile_aabb].
  split.
  - rewrite Forall_fmap.
    eapply Forall_impl; [now apply vertex_list_flat_in_box|].
    intros v Hv. now exists v.
  - unfold tile_offset, offset_from, Vector3i. cbn [vx vy vz position size].
    rewrite inject_Z_opp, inject_Z_plus, inject_Z_two. split; field.
Qed.

Lemma generate_vertices_in_box_witness :
  0 <= 0 <= 18916 /\
  exists t,
    generate_tile 0 1 empty_world = Some t
    /\ Forall (fun slot => exists v, slot = Some v
                 /\ (vy v == 0)%Q /\ in_box (tile_aabb t) v)
              (tile_vertices t).
Proof.
  split; [lia|].
  destruct (generate_vertices_in_box 0 1 empty_world ltac:(lia))
    as (t & Hrun & Hall & _).
  exists t. split; [exact Hrun|exact Hall].
Defined.

(** ** The strips next to the grid *)

Lemma pa_get_grid_vertex (p_size : Z) (offset : Vector3) (a b : Z) :
  0 <= p_size -> 0 <= a <= p_size + 2 -> 0 <= b <= p_size + 2 ->
  a + b < 2 * p_size + 4 ->
  pa_get (Some <$> vertex_list p_size offset) (patch a b (p_size + 3))
  = Some (Some (grid_vertex offset a b)).
Proof.
  intros Hsz Ha Hb Hcorner. apply pa_get_Some; [unfold patch; nia|].
  apply lookup_grid_vertex; lia.
Qed.

Lemma pa_get_column_strip_vertex (p_size : Z) (offset : Vector3) (y : Z) :
  0 <= p_size -> 0 <= y <= p_size ->
  pa_get (Some <$> vertex_list p_size offset) (m0 p_size + y)
  = Some (Some (column_strip_vertex p_size offset y)).
Proof.
  intros Hsz Hy. assert (0 <= m0 p_size) by (unfold m0; nia).
  apply pa_get_Some; [lia|]. now apply lookup_column_strip_vertex.
Qed.

Lemma pa_get_row_strip_vertex (p_size : Z) (offset : Vector3) (x : Z) :
  0 <= p_size -> 0 <= x <= p_size ->
  pa_get (Some <$> vertex_list p_size offset) (m0 p_size + (p_size + 1) + x)
  = Some (Some (row_strip_vertex p_size offset x)).
Proof.
  intros Hsz Hx. assert (0 <= m0 p_size) by (unfold m0; nia).
  apply pa_get_Some; [lia|]. now apply lookup_row_strip_vertex.
Qed.

Ltac stitch_triangle :=
  eexists; split;
  [ unfold tri_normal;
    rewrite ?pa_get_grid_vertex, ?pa_get_column_strip_vertex,
      ?pa_get_row_strip_vertex by lia;
    reflexivity
  | unfold stitch_normal, v3_cross, v3_sub, grid_vertex, column_strip_vertex,
      row_strip_vertex, v3_add, Vector3i;
    cbn [vx vy vz];
    rewrite ?inject_Z_plus, ?inject_Z_one, ?inject_Z_two, ?inject_Z_zero;
    split; [ring|split; [ring|first [left; ring | right; ring]]] ].

Lemma column_segment_normal (p_size y : Z) (offset : Vector3) :
  0 <= p_size -> 0 <= y <= p_size ->
  Forall (fun tr => exists nrm,
            tri_normal (Some <$> vertex_list p_size offset) tr = Some nrm
            /\ stitch_normal nrm)
         (column_segment p_size y).
Proof.
  intros Hsz Hy. unfold column_segment.
  repeat constructor; stitch_triangle.
Qed.

Lemma row_segment_normal (p_size x : Z) (offset : Vector3) :
  0 <= p_size -> 0 <= x <= p_size ->
  Forall (fun tr => exists nrm,
            tri_normal (Some <$> vertex_list p_size offset) tr = Some nrm
            /\ stitch_normal nrm)
         (row_segment p_size x).
Proof.
  intros Hsz Hx. unfold row_segment.
  repeat constructor; stitch_triangle.
Qed.

(** X3: for every size [0 <= S <= 18916] the stitch triangles wind like the grid
    triangles: for each triangle of the column strip and of the row
    strip the three vertices are written, and the cross product of the
    edge vectors (second minus first, crossed with third minus first) is
    [(0, -1, 0)] or [(0, -1/2, 0)]; no stitch triangle is degenerate or
    flipped. *)
Theorem generate_stitch_winding (p_size p_levels : Z) (w : World) :
  0 <= p_size <= 18916 ->
  exists t,
    generate_tile p_size p_levels w = Some t
    /\ Forall (fun tr => exists nrm,
                 tri_normal (tile_vertices t) tr = Some nrm
                 /\ (vx nrm == 0)%Q /\ (vz nrm == 0)%Q
                 /\ ((vy nrm == -1)%Q \/ (vy nrm == - (1 # 2))%Q))
              (column_part p_size (tile_triangles t)
               ++ row_part p_size (tile_triangles t)).
Proof.
  intros Hsz. exists (generated_tile p_size).
  split; [now apply generate_tile_run|].
  rewrite tile_triangles_generated, column_part_generated,
    row_part_generated by lia.
  cbn [generated_tile created_tile tile_vertices].
  unfold column_triangles, row_triangles.
  rewrite Forall_app, !Forall_flat_map, !Forall_seqZ. split.
  - intros y Hy. apply column_segment_normal; lia.
  - intros x Hx. apply row_segment_normal; lia.
Qed.

Lemma generate_stitch_winding_witness :
  0 <= 1 <= 18916 /\
  exists t,
    generate_tile 1 1 empty_world = Some t
    /\ Forall (fun tr => exists nrm,
                 tri_normal (tile_vertices t) tr = Some nrm
                 /\ (vx nrm == 0)%Q /\ (vz nrm == 0)%Q
                 /\ ((vy nrm == -1)%Q \/ (vy nrm == - (1 # 2))%Q))
              (column_part 1 (tile_triangles t)
               ++ row_part 1 (tile_triangles t)).
Proof.
  split; [lia|].
  exact (generate_stitch_winding 1 1 empty_world ltac:(lia)).
Defined.

(** X4: for every size [0 <= S <= 18916] each strip vertex sits halfway between
    two neighbouring vertices of the outer grid line: the vertex of
    column segment [y] is the midpoint of the grid vertices [(S+2, y)]
    and [(S+2, y+1)], and the vertex of row segment [x] is the midpoint
    of [(x, S+2)] and [(x+1, S+2)]. *)
Theorem generate_strip_midpoints (p_size p_levels : Z) (w : World) :
  0 <= p_size <= 18916 ->
  exists t,
    generate_tile p_size p_levels w = Some t
    /\ (forall y, 0 <= y <= p_size ->
          exists mid a b,
            pa_get (tile_vertices t) ((p_size + 3) ^ 2 - 1 + y)
            = Some (Some mid)
            /\ pa_get (tile_vertices t) (y * (p_size + 3) + (p_size + 2))
               = Some (Some a)
            /\ pa_get (tile_vertices t)
                      ((y + 1) * (p_size + 3) + (p_size + 2))
               = Some (Some b)
            /\ v3_eq (v3_add mid mid) (v3_add a b))
    /\ (forall x, 0 <= x <= p_size ->
          exists mid a b,
            pa_get (tile_vertices t) ((p_size + 3) ^ 2 - 1 + (p_size + 1) + x)
            = Some (Some mid)
            /\ pa_get (tile_vertices t) ((p_size + 2) * (p_size + 3) + x)
               = Some (Some a)
            /\ pa_get (tile_vertices t) ((p_size + 2) * (p_size + 3) + (x + 1))
               = Some (Some b)
            /\ v3_eq (v3_add mid mid) (v3_add a b)).
Proof.
  intros Hsz. exists (generated_tile p_size).
  split; [now apply generate_tile_run|].
  cbn [generated_tile created_tile tile_vertices].
  replace ((p_size + 3) ^ 2 - 1) with (m0 p_size) by (unfold m0; lia).
  split.
  - intros y Hy.
    exists (column_strip_vertex p_size (tile_offset p_size) y),
      (grid_vertex (tile_offset p_size) (p_size + 2) y),
      (grid_vertex (tile_offset p_size) (p_size + 2) (y + 1)).
    split; [now apply pa_get_column_strip_vertex|].
    split; [apply (pa_get_grid_vertex _ _ (p_size + 2) y); lia|].
    split; [apply (pa_get_grid_vertex _ _ (p_size + 2) (y + 1)); lia|].
    unfold v3_eq, column_strip_vertex, grid_vertex, v3_add, Vector3i.
    cbn [vx vy vz].
    rewrite !inject_Z_plus, ?inject_Z_one, ?inject_Z_two, ?inject_Z_zero.
    repeat split; ring.
  - intros x Hx.
    exists (row_strip_vertex p_size (tile_offset p_size) x),
      (grid_vertex (tile_offset p_size) x (p_size + 2)),
      (grid_vertex (tile_offset p_size) (x + 1) (p_size + 2)).
    split; [now apply pa_get_row_strip_vertex|].
    split; [apply (pa_get_grid_vertex _ _ x (p_size + 2)); lia|].
    split; [apply (pa_get_grid_vertex _ _ (x + 1) (p_size + 2)); lia|].
    unfold v3_eq, row_strip_vertex, grid_vertex, v3_add, Vector3i.
    cbn [vx vy vz].
    rewrite !inject_Z_plus, ?inject_Z_one, ?inject_Z_two, ?inject_Z_zero.
    repeat split; ring.
Qed.

Lemma generate_strip_midpoints_witness :
  0 <= 0 <= 18916 /\
  exists t mid a b,
    generate_tile 0 1 empty_world = Some t
    /\ pa_get (tile_vertices t) 8 = Some (Some mid)
    /\ pa_get (tile_vertices t) 2 = Some (Some a)
    /\ pa_get (tile_vertices t) 5 = Some (Some b)
    /\ v3_eq (v3_add mid mid) (v3_add a b).
Proof.
  split; [lia|].
  destruct (generate_strip_midpoints 0 1 empty_world ltac:(lia))
    as (t & Hrun & Hcol & _).
  destruct (Hcol 0 ltac:(lia)) as (mid & a & b & Hmid & Ha & Hb & Heq).
  exists t, mid, a, b.
  split; [exact Hrun|]. split; [exact Hmid|]. split; [exact Ha|].
  split; [exact Hb|exact Heq].
Defined.

(** ** Sizes below zero *)

Lemma tile_buffers_negative (p_size : Z) :
  -18919 <= p_size <= -3 ->
  tile_buffers p_size init_locals
  = Some (tile_offset p_size,
          mkLocals
            (pa_resize ((p_size + 3) * (p_size + 3)
                        + (p_size + 1) * 2 - 1) [])
            (pa_resize ((p_size + 1) * (p_size + 1) * 6
                        + (p_size + 1) * 9 * 2) [])
            0 ((p_size + 3) * (p_size + 3) - 1) [] []).
Proof.
  intros Hsz.
  unfold tile_buffers, declare_buffers, compute_offset, fill_vertices,
    fill_indices, grid_vertices, column_strip_vertices, row_strip_vertices,
    grid_indices, column_strip_indices, row_strip_indices,
    resize_vertices, resize_indices, set_n, set_m.
  int_eval_products.
  cbv [bind eval ret init_locals vertices indices n m vwrites iwrites].
  repeat (rewrite for_range_empty by lia; cbv beta iota).
  reflexivity.
Qed.

(** X5: [generate] does not check its size.  For every [p_size] from
    -18919 to -7 (below -18919 the index length overflows) no loop runs
    and nothing is written, while both arrays are given a positive
    length; the block still ends, and [generate] hands the arrays to the
    rendering server with every slot unwritten and returns one handle. *)
Theorem generate_negative_size (p_size p_levels : Z) (w : World) :
  -18919 <= p_size <= -7 ->
  exists l mesh w' t,
    tile_buffers p_size init_locals = Some (tile_offset p_size, l)
    /\ vwrites l = [] /\ iwrites l = []
    /\ generate p_size p_levels w = Some ([mesh], w')
    /\ tile_of w' mesh = Some t
    /\ pa_size (tile_vertices t)
       = (p_size + 3) * (p_size + 3) + (p_size + 1) * 2 - 1
    /\ pa_size (tile_indices t)
       = (p_size + 1) * (p_size + 1) * 6 + (p_size + 1) * 9 * 2
    /\ 0 < pa_size (tile_vertices t)
    /\ 0 < pa_size (tile_indices t)
    /\ Forall (fun slot => slot = None) (tile_vertices t)
    /\ Forall (fun slot => slot = None) (tile_indices t).
Proof.
  intros Hsz.
  pose (vn := (p_size + 3) * (p_size + 3) + (p_size + 1) * 2 - 1).
  pose (idn := (p_size + 1) * (p_size + 1) * 6 + (p_size + 1) * 9 * 2).
  assert (Hvn : 0 < vn) by (unfold vn; nia).
  assert (Hidn : 0 < idn) by (unfold idn; nia).
  pose (box := mkAABB (tile_offset p_size)
                      (Vector3i (p_size + 2) 1 (p_size + 2))).
  destruct (_create_mesh_run (pa_resize vn []) (pa_resize idn []) box
              (mkWorld (RS w) (logged w ++ [LogGenerating p_size p_levels])))
    as (w' & Hrun & Htile & _).
  eexists _, (next_rid (RS w)), w', _.
  split; [apply tile_buffers_negative; lia|].
  split; [reflexivity|]. split; [reflexivity|].
  split.
  { unfold generate. erewrite bind_ret_run by reflexivity.
    erewrite bind_ret_run
      by (unfold block; now rewrite tile_buffers_negative by lia).
    int_eval. rewrite !bind_eval_Some.
    cbn [fst snd vertices indices]. fold vn idn box.
    now erewrite bind_ret_run by exact Hrun. }
  split; [exact Htile|].
  cbn [created_tile tile_vertices tile_indices].
  rewrite !pa_resize_nil by lia. unfold filling, pa_size.
  cbn [fmap list_fmap app length].
  rewrite !length_replicate, Z.sub_0_r.
  fold vn idn.
  repeat split; try lia; now apply Forall_replicate.
Qed.

Lemma generate_negative_size_witness :
  -18919 <= -7 <= -7 /\
  exists l mesh w' t,
    tile_buffers (-7) init_locals = Some (tile_offset (-7), l)
    /\ vwrites l = [] /\ iwrites l = []
    /\ generate (-7) 1 empty_world = Some ([mesh], w')
    /\ tile_of w' mesh = Some t
    /\ pa_size (tile_vertices t) = 3
    /\ pa_size (tile_indices t) = 108
    /\ Forall (fun slot => slot = None) (tile_vertices t)
    /\ Forall (fun slot => slot = None) (tile_indices t).
Proof.
  split; [lia|].
  destruct (generate_negative_size (-7) 1 empty_world ltac:(lia))
    as (l & mesh & w' & t & Hl & Hvw & Hiw & Hrun & Htile & Hvn & Hin
        & _ & _ & Hv & Hi).
  exists l, mesh, w', t.
  split; [exact Hl|]. split; [exact Hvw|]. split; [exact Hiw|].
  split; [exact Hrun|]. split; [exact Htile|].
  split; [exact Hvn|]. split; [exact Hin|]. split; [exact Hv|exact Hi].
Defined.

(** ** Handles *)

Lemma _create_mesh_frame (p_vertices : Packed Vector3) (p_indices : Packed Z)
    (p_aabb : AABB) (w : World) :
  exists w',
    _create_mesh p_vertices p_indices p_aabb w = Some (next_rid (RS w), w')
    /\ tile_of w' (next_rid (RS w))
       = Some (created_tile p_vertices p_indices p_aabb)
    /\ next_rid (RS w') = N.succ (next_rid (RS w))
    /\ (forall rid, rid <> next_rid (RS w) ->
          meshes (RS w') !! rid = meshes (RS w) !! rid).
Proof.
  destruct (_create_mesh_run p_vertices p_indices p_aabb w)
    as (w' & Hrun & Htile & _).
  exists w'. split; [exact Hrun|]. split; [exact Htile|].
  assert (Hw' : Some (next_rid (RS w), w')
                = _create_mesh p_vertices p_indices p_aabb w)
    by now rewrite Hrun.
  cbv [_create_mesh bind LOG rs_call rs_do ret mesh_create] in Hw'.
  cbn [RS logged] in Hw'. injection Hw' as ->.
  cbn [RS meshes next_rid mesh_set_custom_aabb mesh_add_surface_from_arrays].
  split; [reflexivity|].
  intros rid Hrid.
  now rewrite !lookup_alter_ne, lookup_insert_ne by congruence.
Qed.

Lemma fresh_handles_empty : fresh_handles (RS empty_world).
Proof. intros rid _. apply lookup_empty. Qed.

Lemma fresh_handles_step (rs rs' : RenderingServer) :
  fresh_handles rs ->
  next_rid rs' = N.succ (next_rid rs) ->
  (forall rid, rid <> next_rid rs -> meshes rs' !! rid = meshes rs !! rid) ->
  fresh_handles rs'.
Proof.
  intros Hfresh Hnext Hframe rid Hrid.
  rewrite Hframe by lia. apply Hfresh. lia.
Qed.

(** X6: [_create_mesh] adds one mesh and touches no other, on the
    rendering server as it is modelled from the spec.  In a world whose
    server has given out every handle it uses, the handle returned was
    not in use before the call; behind it is a mesh with one surface of
    triangles that holds the vertex array, the index array and the box
    exactly as they were passed; every other handle reads as it did, so
    every mesh the server held before is still there unchanged; and the
    handles not yet given out are still unused after the call. *)
Theorem _create_mesh_adds_one_mesh (p_vertices : Packed Vector3)
    (p_indices : Packed Z) (p_aabb : AABB) (w : World) :
  fresh_handles (RS w) ->
  exists mesh w' t,
    _create_mesh p_vertices p_indices p_aabb w = Some (mesh, w')
    /\ meshes (RS w) !! mesh = None
    /\ tile_of w' mesh = Some t
    /\ tile_vertices t = p_vertices
    /\ tile_indices t = p_indices
    /\ tile_aabb t = p_aabb
    /\ (forall rid, rid <> mesh ->
          meshes (RS w') !! rid = meshes (RS w) !! rid
          /\ tile_of w' rid = tile_of w rid)
    /\ (forall rid old, meshes (RS w) !! rid = Some old ->
          meshes (RS w') !! rid = Some old)
    /\ fresh_handles (RS w').
Proof.
  intros Hfresh.
  destruct (_create_mesh_frame p_vertices p_indices p_aabb w)
    as (w' & Hrun & Htile & Hnext & Hframe).
  assert (Hnew : meshes (RS w) !! next_rid (RS w) = None)
    by (apply Hfresh; lia).
  exists (next_rid (RS w)), w', (created_tile p_vertices p_indices p_aabb).
  split; [exact Hrun|]. split; [exact Hnew|]. split; [exact Htile|].
  split; [reflexivity|]. split; [reflexivity|]. split; [reflexivity|].
  split; [|split].
  - intros rid Hrid. split; [now apply Hframe|].
    unfold tile_of. now rewrite Hframe.
  - intros rid old Hold. rewrite Hframe; [exact Hold|].
    intros ->. congruence.
  - now apply (fresh_handles_step (RS w)).
Qed.

Lemma _create_mesh_adds_one_mesh_witness :
  fresh_handles (RS empty_world) /\
  exists mesh w' t,
    _create_mesh [Some (mkVector3 0 0 0); None] [Some 0; Some 1; Some 0]
      (mkAABB (mkVector3 0 0 0) (Vector3i 1 1 1)) empty_world
    = Some (mesh, w')
    /\ meshes (RS empty_world) !! mesh = None
    /\ tile_of w' mesh = Some t
    /\ tile_vertices t = [Some (mkVector3 0 0 0); None]
    /\ tile_indices t = [Some 0; Some 1; Some 0]
    /\ fresh_handles (RS w').
Proof.
  split; [exact fresh_handles_empty|].
  destruct (_create_mesh_adds_one_mesh
              [Some (mkVector3 0 0 0); None] [Some 0; Some 1; Some 0]
              (mkAABB (mkVector3 0 0 0) (Vector3i 1 1 1)) empty_world
              fresh_handles_empty)
    as (mesh & w' & t & Hrun & Hnew & Htile & Hv & Hi & _ & _ & _ & Hfresh).
  exists mesh, w', t.
  split; [exact Hrun|]. split; [exact Hnew|]. split; [exact Htile|].
  split; [exact Hv|]. split; [exact Hi|exact Hfresh].
Defined.

Lemma generate_frame (p_size p_levels : Z) (w : World) :
  0 <= p_size <= 18916 ->
  exists w',
    generate p_size p_levels w = Some ([next_rid (RS w)], w')
    /\ tile_of w' (next_rid (RS w)) = Some (generated_tile p_size)
    /\ next_rid (RS w') = N.succ (next_rid (RS w))
    /\ (forall rid, rid <> next_rid (RS w) ->
          meshes (RS w') !! rid = meshes (RS w) !! rid).
Proof.
  intros Hsz. unfold generate.
  erewrite bind_ret_run by reflexivity.
  erewrite bind_ret_run by (unfold block; now rewrite tile_buffers_run).
  int_eval. rewrite !bind_eval_Some.
  cbn [fst snd vertices indices final_locals].
  destruct (_create_mesh_frame
              (Some <$> vertex_list p_size (tile_offset p_size))
              (Some <$> index_list p_size)
              (mkAABB (tile_offset p_size)
                      (Vector3i (p_size + 2) 1 (p_size + 2)))
              (mkWorld (RS w) (logged w ++ [LogGenerating p_size p_levels])))
    as (w' & Hrun & Htile & Hnext & Hframe).
  exists w'. erewrite bind_ret_run by exact Hrun.
  split; [reflexivity|]. split; [exact Htile|]. split; assumption.
Qed.

(** X7: for every size [0 <= S <= 18916], on the rendering server as it
    is modelled from the spec and in a world whose server has given out
    every handle it uses, two calls of [generate] one after the other
    give two different handles, neither of them in use before its call,
    and after the second call both meshes read as the same tile: the
    second call builds the same geometry again and leaves the first mesh
    alone. *)
Theorem generate_twice (p_size l1 l2 : Z) (w : World) :
  0 <= p_size <= 18916 ->
  fresh_handles (RS w) ->
  exists mesh1 w1 mesh2 w2 t,
    generate p_size l1 w = Some ([mesh1], w1)
    /\ generate p_size l2 w1 = Some ([mesh2], w2)
    /\ meshes (RS w) !! mesh1 = None
    /\ meshes (RS w1) !! mesh2 = None
    /\ mesh1 <> mesh2
    /\ tile_of w1 mesh1 = Some t
    /\ tile_of w2 mesh1 = Some t
    /\ tile_of w2 mesh2 = Some t.
Proof.
  intros Hsz Hfresh.
  destruct (generate_frame p_size l1 w Hsz)
    as (w1 & Hrun1 & Htile1 & Hnext1 & Hframe1).
  destruct (generate_frame p_size l2 w1 Hsz)
    as (w2 & Hrun2 & Htile2 & _ & Hframe2).
  pose proof (fresh_handles_step (RS w) (RS w1) Hfresh Hnext1 Hframe1)
    as Hfresh1.
  exists (next_rid (RS w)), w1, (next_rid (RS w1)), w2,
    (generated_tile p_size).
  split; [exact Hrun1|]. split; [exact Hrun2|].
  split; [apply Hfresh; lia|]. split; [apply Hfresh1; lia|].
  assert (Hne : next_rid (RS w) <> next_rid (RS w1)) by (rewrite Hnext1; lia).
  split; [exact Hne|]. split; [exact Htile1|]. split; [|exact Htile2].
  unfold tile_of in *. now rewrite Hframe2.
Qed.

Lemma generate_twice_witness :
  0 <= 1 <= 18916 /\ fresh_handles (RS empty_world) /\
  exists mesh1 w1 mesh2 w2 t,
    generate 1 1 empty_world = Some ([mesh1], w1)
    /\ generate 1 1 w1 = Some ([mesh2], w2)
    /\ meshes (RS empty_world) !! mesh1 = None
    /\ meshes (RS w1) !! mesh2 = None
    /\ mesh1 <> mesh2
    /\ tile_of w1 mesh1 = Some t
    /\ tile_of w2 mesh1 = Some t
    /\ tile_of w2 mesh2 = Some t.
Proof.
  split; [lia|]. split; [exact fresh_handles_empty|].
  exact (generate_twice 1 1 1 empty_world ltac:(lia) fresh_handles_empty).
Defined.

(** ** Slots and positions *)

Lemma pa_get_Some_inv {A} (l : list A) (i : Z) (a : A) :
  pa_get (Some <$> l) i = Some (Some a) ->
  0 <= i < Z.of_nat (length l) /\ l !! Z.to_nat i = Some a.
Proof.
  unfold pa_get. destruct (Z.leb_spec 0 i) as [Hi|?]; [|discriminate].
  rewrite list_lookup_fmap. destruct (l !! Z.to_nat i) as [b|] eqn:Hl;
    [|discriminate].
  intros [= ->]. split; [|reflexivity].
  apply lookup_lt_Some in Hl. lia.
Qed.

(** A slot below [m0] is a grid slot: it decodes to a column and a row
    of the grid, and not to the corner. *)
Lemma grid_slot_decode (p_size i : Z) :
  0 <= p_size -> 0 <= i < m0 p_size ->
  let x := i mod (p_size + 3) in
  let y := i / (p_size + 3) in
  i = patch x y (p_size + 3)
  /\ 0 <= x <= p_size + 2 /\ 0 <= y <= p_size + 2
  /\ ~ (x = p_size + 2 /\ y = p_size + 2).
Proof.
  intros Hsz Hi x y. unfold m0 in Hi.
  pose proof (Z.div_mod i (p_size + 3) ltac:(lia)) as Hdm.
  pose proof (Z.mod_pos_bound i (p_size + 3) ltac:(lia)) as Hmod.
  fold x y in Hdm, Hmod. unfold patch.
  assert (0 <= y) by (subst y; apply Z.div_pos; lia).
  repeat split; try lia; nia.
Qed.

(** Pushes [inject_Z] down to the variables of a goal. *)
Ltac push_inject :=
  repeat first [rewrite inject_Z_plus | rewrite inject_Z_mult];
  rewrite ?inject_Z_two, ?inject_Z_one, ?inject_Z_zero.

Lemma vertex_at_key (p_size i : Z) (offset : Vector3) :
  0 <= p_size -> 0 <= i < vertex_count p_size ->
  exists v,
    vertex_list p_size offset !! Z.to_nat i = Some v
    /\ (2 * vx v == inject_Z (fst (vertex_key p_size i)) + 2 * vx offset)%Q
    /\ (2 * vz v == inject_Z (snd (vertex_key p_size i)) + 2 * vz offset)%Q.
Proof.
  intros Hsz Hi. unfold vertex_key, vertex_count in *.
  fold (m0 p_size) in Hi.
  destruct (Z.ltb_spec i (m0 p_size)) as [Hgrid|Hstrip].
  - destruct (grid_slot_decode p_size i Hsz ltac:(lia))
      as (Hdec & Hx & Hy & Hcorner).
    exists (grid_vertex offset (i mod (p_size + 3)) (i / (p_size + 3))).
    split.
    + rewrite Hdec at 1. now apply lookup_grid_vertex.
    + unfold grid_vertex, v3_add, Vector3i. cbn [vx vy vz fst snd].
      rewrite !inject_Z_mult, inject_Z_two. split; ring.
  - destruct (Z.ltb_spec i (m0 p_size + (p_size + 1))) as [Hcol|Hrow].
    + exists (column_strip_vertex p_size offset (i - m0 p_size)). split.
      * replace i with (m0 p_size + (i - m0 p_size)) at 1 by lia.
        apply lookup_column_strip_vertex; lia.
      * unfold column_strip_vertex, v3_add. cbn [vx vy vz fst snd].
        push_inject. split; ring.
    + exists (row_strip_vertex p_size offset
                (i - m0 p_size - (p_size + 1))). split.
      * replace i
          with (m0 p_size + (p_size + 1) + (i - m0 p_size - (p_size + 1)))
          at 1 by lia.
        apply lookup_row_strip_vertex; lia.
      * unfold row_strip_vertex, v3_add. cbn [vx vy vz fst snd].
        push_inject. split; ring.
Qed.

Lemma vertex_key_inj (p_size i j : Z) :
  0 <= p_size -> 0 <= i < vertex_count p_size ->
  0 <= j < vertex_count p_size ->
  vertex_key p_size i = vertex_key p_size j -> i = j.
Proof.
  intros Hsz Hi Hj. unfold vertex_key.
  destruct (Z.ltb_spec i (m0 p_size));
    destruct (Z.ltb_spec j (m0 p_size));
    destruct (Z.ltb_spec i (m0 p_size + (p_size + 1)));
    destruct (Z.ltb_spec j (m0 p_size + (p_size + 1)));
    intros Hk; pose proof (f_equal fst Hk) as Hkx;
    pose proof (f_equal snd Hk) as Hkz; cbn [fst snd] in Hkx, Hkz; try lia.
  rewrite (Z.div_mod i (p_size + 3)), (Z.div_mod j (p_size + 3)) by lia.
  assert (i mod (p_size + 3) = j mod (p_size + 3)) as -> by lia.
  assert (i / (p_size + 3) = j / (p_size + 3)) as -> by lia.
  reflexivity.
Qed.

(** X8: for every size [0 <= S <= 18916] no position is stored twice: two vertex
    slots that hold the same position are the same slot. *)
Theorem generate_vertices_distinct (p_size p_levels : Z) (w : World) :
  0 <= p_size <= 18916 ->
  exists t,
    generate_tile p_size p_levels w = Some t
    /\ forall i j vi vj,
         pa_get (tile_vertices t) i = Some (Some vi) ->
         pa_get (tile_vertices t) j = Some (Some vj) ->
         v3_eq vi vj -> i = j.
Proof.
  intros Hrange. exists (generated_tile p_size).
  split; [now apply generate_tile_run|].
  assert (Hsz : 0 <= p_size) by lia.
  cbn [generated_tile created_tile tile_vertices].
  intros i j vi vj Hvi Hvj (Hx & _ & Hz).
  apply pa_get_Some_inv in Hvi as [Hi Hvi], Hvj as [Hj Hvj].
  rewrite length_vertex_list in Hi, Hj by lia.
  destruct (vertex_at_key p_size i (tile_offset p_size) Hsz Hi)
    as (vi' & Hvi' & Hix & Hiz).
  destruct (vertex_at_key p_size j (tile_offset p_size) Hsz Hj)
    as (vj' & Hvj' & Hjx & Hjz).
  assert (vi' = vi) as -> by congruence.
  assert (vj' = vj) as -> by congruence.
  apply (vertex_key_inj p_size i j Hsz Hi Hj).
  destruct (vertex_key p_size i) as [ix iz], (vertex_key p_size j) as [jx jz].
  cbn [fst snd] in *. f_equal; apply inject_Z_injective; lra.
Qed.

Lemma generate_vertices_distinct_witness :
  0 <= 2 <= 18916 /\
  exists t,
    generate_tile 2 1 empty_world = Some t
    /\ forall i j vi vj,
         pa_get (tile_vertices t) i = Some (Some vi) ->
         pa_get (tile_vertices t) j = Some (Some vj) ->
         v3_eq vi vj -> i = j.
Proof.
  split; [lia|].
  exact (generate_vertices_distinct 2 1 empty_world ltac:(lia)).
Defined.

(** ** Vertices and the triangles that use them *)

Lemma In_seqZ (k i : Z) : 0 <= i < k -> In i (seqZ 0 k).
Proof. intros Hi. apply list_elem_of_In, elem_of_seqZ. lia. Qed.

Lemma In_cell_triangle_list (p_size x y : Z) (tr : Triangle) :
  0 <= x <= p_size -> 0 <= y <= p_size ->
  In tr (cell_triangles p_size x y) -> In tr (triangle_list p_size).
Proof.
  intros Hx Hy Htr. unfold triangle_list, grid_triangles, grid_row_triangles.
  apply in_or_app. left.
  apply in_flat_map. exists y. split; [apply In_seqZ; lia|].
  apply in_flat_map. exists x. split; [apply In_seqZ; lia|exact Htr].
Qed.

Lemma In_column_triangle_list (p_size y : Z) (tr : Triangle) :
  0 <= y <= p_size ->
  In tr (column_segment p_size y) -> In tr (triangle_list p_size).
Proof.
  intros Hy Htr. unfold triangle_list, column_triangles.
  apply in_or_app. right. apply in_or_app. left.
  apply in_flat_map. exists y. split; [apply In_seqZ; lia|exact Htr].
Qed.

Lemma In_row_triangle_list (p_size x : Z) (tr : Triangle) :
  0 <= x <= p_size ->
  In tr (row_segment p_size x) -> In tr (triangle_list p_size).
Proof.
  intros Hx Htr. unfold triangle_list, row_triangles.
  apply in_or_app. right. apply in_or_app. right.
  apply in_flat_map. exists x. split; [apply In_seqZ; lia|exact Htr].
Qed.

(** Closes [exists tr, In tr (triangle_list _) /\ In i (tri_indices tr)]
    with the [k]-th triangle of a cell or of a segment. *)
Ltac use_triangle lem k :=
  eexists; split;
  [ eapply lem; [lia..|];
    unfold cell_triangles, column_segment, row_segment;
    apply (nth_In _ (0, 0, 0) (n := k)); cbn [length]; lia
  | cbn [nth tri_indices In]; unfold patch in *; lia ].

Lemma grid_vertex_used (p_size x y : Z) :
  0 <= p_size -> 0 <= x <= p_size + 2 -> 0 <= y <= p_size + 2 ->
  ~ (x = p_size + 2 /\ y = p_size + 2) ->
  exists tr, In tr (triangle_list p_size)
             /\ In (patch x y (p_size + 3)) (tri_indices tr).
Proof.
  intros Hsz Hx Hy Hcorner.
  destruct (Z_le_gt_dec x p_size) as [Hxs|Hxs];
    destruct (Z_le_gt_dec y p_size) as [Hys|Hys].
  - use_triangle (In_cell_triangle_list p_size x y) 0%nat.
  - destruct (decide (y = p_size + 1)) as [->|Hy2].
    + use_triangle (In_cell_triangle_list p_size x p_size) 0%nat.
    + assert (y = p_size + 2) as -> by lia.
      use_triangle (In_row_triangle_list p_size x) 0%nat.
  - destruct (decide (x = p_size + 1)) as [->|Hx2].
    + use_triangle (In_cell_triangle_list p_size p_size y) 1%nat.
    + assert (x = p_size + 2) as -> by lia.
      use_triangle (In_column_triangle_list p_size y) 0%nat.
  - destruct (decide (x = p_size + 1)) as [->|Hx2];
      destruct (decide (y = p_size + 1)) as [->|Hy2].
    + use_triangle (In_cell_triangle_list p_size p_size p_size) 0%nat.
    + assert (y = p_size + 2) as -> by lia.
      use_triangle (In_row_triangle_list p_size p_size) 2%nat.
    + assert (x = p_size + 2) as -> by lia.
      use_triangle (In_column_triangle_list p_size p_size) 2%nat.
    + lia.
Qed.

Lemma vertex_used (p_size i : Z) :
  0 <= p_size -> 0 <= i < vertex_count p_size ->
  exists tr, In tr (triangle_list p_size) /\ In i (tri_indices tr).
Proof.
  intros Hsz Hi. unfold vertex_count in Hi. fold (m0 p_size) in Hi.
  destruct (Z_lt_ge_dec i (m0 p_size)) as [Hgrid|Hstrip].
  - destruct (grid_slot_decode p_size i Hsz ltac:(lia))
      as (Hdec & Hx & Hy & Hcorner).
    rewrite Hdec. now apply grid_vertex_used.
  - destruct (Z_lt_ge_dec i (m0 p_size + (p_size + 1))) as [Hcol|Hrow].
    + use_triangle (In_column_triangle_list p_size (i - m0 p_size)) 0%nat.
    + use_triangle
        (In_row_triangle_list p_size (i - m0 p_size - (p_size + 1))) 0%nat.
Qed.

(** X9: for every size [0 <= S <= 18916] no vertex is left over: every slot of
    the vertex array is the corner of at least one triangle of the index
    list. *)
Theorem generate_every_vertex_used (p_size p_levels : Z) (w : World) :
  0 <= p_size <= 18916 ->
  exists t,
    generate_tile p_size p_levels w = Some t
    /\ forall i, 0 <= i < pa_size (tile_vertices t) ->
         exists tr, tr ∈ tile_triangles t /\ i ∈ tri_indices tr.
Proof.
  intros Hsz. exists (generated_tile p_size).
  split; [now apply generate_tile_run|].
  rewrite tile_triangles_generated.
  cbn [generated_tile created_tile tile_vertices]. unfold pa_size.
  rewrite length_fmap, length_vertex_list by lia.
  intros i Hi.
  destruct (vertex_used p_size i ltac:(lia) Hi) as (tr & Htr & Hin).
  exists tr. now rewrite !list_elem_of_In.
Qed.

Lemma generate_every_vertex_used_witness :
  0 <= 1 <= 18916 /\
  exists t,
    generate_tile 1 1 empty_world = Some t
    /\ forall i, 0 <= i < pa_size (tile_vertices t) ->
         exists tr, tr ∈ tile_triangles t /\ i ∈ tri_indices tr.
Proof.
  split; [lia|].
  exact (generate_every_vertex_used 1 1 empty_world ltac:(lia)).
Defined.

(** ** Grid slots and strip slots *)

(** X10: for every size [0 <= S <= 18916] the index list keeps the two kinds of
    slot apart.  With [m = (S+3)^2 - 1] the first strip slot, a grid
    triangle has its three corners in grid slots (below [m]), and a
    stitch triangle has its first two corners in grid slots and its
    third in a strip slot (from [m] up): no index computed by
    [patch] reaches the slot that the skipped corner would have
    had. *)
Theorem generate_slot_kinds (p_size p_levels : Z) (w : World) :
  0 <= p_size <= 18916 ->
  exists t,
    generate_tile p_size p_levels w = Some t
    /\ Forall (fun tr : Triangle =>
                 let '(a, b, c) := tr in
                 0 <= a < (p_size + 3) ^ 2 - 1
                 /\ 0 <= b < (p_size + 3) ^ 2 - 1
                 /\ 0 <= c < (p_size + 3) ^ 2 - 1)
              (grid_part p_size (tile_triangles t))
    /\ Forall (fun tr : Triangle =>
                 let '(a, b, c) := tr in
                 0 <= a < (p_size + 3) ^ 2 - 1
                 /\ 0 <= b < (p_size + 3) ^ 2 - 1
                 /\ (p_size + 3) ^ 2 - 1 <= c < pa_size (tile_vertices t))
              (column_part p_size (tile_triangles t)
               ++ row_part p_size (tile_triangles t)).
Proof.
  intros Hsz. exists (generated_tile p_size).
  split; [now apply generate_tile_run|].
  rewrite tile_triangles_generated, grid_part_generated,
    column_part_generated, row_part_generated by lia.
  cbn [generated_tile created_tile tile_vertices]. unfold pa_size.
  rewrite length_fmap, length_vertex_list by lia.
  unfold grid_triangles, grid_row_triangles, column_triangles, row_triangles.
  rewrite Forall_app, !Forall_flat_map, !Forall_seqZ.
  split; [|split].
  - intros y Hy. rewrite Forall_flat_map, Forall_seqZ. intros x Hx.
    unfold cell_triangles, patch.
    repeat constructor; nia.
  - intros y Hy. unfold column_segment, patch, m0, vertex_count.
    repeat constructor; nia.
  - intros x Hx. unfold row_segment, patch, m0, vertex_count.
    repeat constructor; nia.
Qed.

Lemma generate_slot_kinds_witness :
  0 <= 0 <= 18916 /\
  exists t,
    generate_tile 0 1 empty_world = Some t
    /\ Forall (fun tr : Triangle =>
                 let '(a, b, c) := tr in
                 0 <= a < 8 /\ 0 <= b < 8 /\ 8 <= c < 10)
              (column_part 0 (tile_triangles t)
               ++ row_part 0 (tile_triangles t)).
Proof.
  split; [lia|].
  destruct (generate_slot_kinds 0 1 empty_world ltac:(lia))
    as (t & Hrun & _ & Hstitch).
  exists t. split; [exact Hrun|].
  assert (Hlen : pa_size (tile_vertices t) = 10).
  { unfold generate_tile in Hrun. vm_compute in Hrun.
    injection Hrun as <-. reflexivity. }
  rewrite Hlen in Hstitch. exact Hstitch.
Defined.

(** ** The sizes that have a result *)

(** X11: the sizes [generate] can take are bounded by the index length
    of line 73.  For every size [0 <= S <= 18916] a call returns one
    handle; for a size above 18916 or below -18919 the index length does
    not fit an [int], and the call has no result. *)
Theorem generate_result_range (p_size p_levels : Z) (w : World) :
  (0 <= p_size <= 18916 ->
   exists mesh w', generate p_size p_levels w = Some ([mesh], w'))
  /\ (p_size < -18919 \/ 18916 < p_size ->
      generate p_size p_levels w = None).
Proof.
  split.
  - intros Hsz.
    destruct (generate_run p_size p_levels w Hsz) as (w' & Hrun & _).
    now exists (next_rid (RS w)), w'.
  - intros Hout.
    destruct (generate p_size p_levels w) as [r|] eqn:Hrun; [|reflexivity].
    apply generate_defined_range in Hrun. lia.
Qed.

Lemma generate_result_range_witness :
  (exists mesh w', generate 18916 1 empty_world = Some ([mesh], w'))
  /\ generate 18917 1 empty_world = None
  /\ generate (-18920) 1 empty_world = None.
Proof.
  split; [|split].
  - apply (generate_result_range 18916 1 empty_world). lia.
  - apply (generate_result_range 18917 1 empty_world). lia.
  - apply (generate_result_range (-18920) 1 empty_world). lia.
Defined.
